(** * Stock explorer (mnf-app/app.py): the reactive derivation pipeline

    A shallow embedding of the server logic of [app.py]: the pandas
    operations the program calls (on an explicit store of DataFrame
    objects, since pandas frames are mutable and shared by reference),
    the reactive calculations [get_data], [get_change] and
    [get_change_percent], the rendered outputs [price], [change],
    [change_icon], [change_percent], [price_history] and [latest_data],
    and the module-level code that parses the dates and computes the
    list of instruments and the default date range. *)

From Stdlib Require Import ZArith QArith Qabs Qcanon Qround String Ascii List Lia Lqa.
From Stdlib Require Import Permutation Sorted.
From stdpp Require Import base numbers list strings gmap sorting pretty.

Local Open Scope string_scope.
Local Open Scope list_scope.
Local Open Scope Z_scope.

(** ** Numbers

    A numeric cell holds a numpy [int64] or [float64]; once it is read
    with [iloc] or moved into an object column it behaves as a Python
    [int] or [float].  Finite values are modelled as exact rationals (the
    rounding of binary floating point is abstracted away, and zero carries
    no sign: it is [+0]); the three special values of IEEE 754 are kept,
    because the program can produce and display them. *)

Inductive number : Type :=
| Fin (q : Qc)
| PInf
| NInf
| NaN.

Global Instance number_eq_dec : EqDecision number.
Proof. solve_decision. Defined.

Definition of_Z (z : Z) : number := Fin (Qc_of_Z z).

Definition num_opp (x : number) : number :=
  match x with
  | Fin q => Fin (- q)%Qc
  | PInf => NInf
  | NInf => PInf
  | NaN => NaN
  end.

Definition num_add (x y : number) : number :=
  match x, y with
  | NaN, _ | _, NaN => NaN
  | Fin a, Fin b => Fin (a + b)%Qc
  | PInf, NInf | NInf, PInf => NaN
  | PInf, _ | _, PInf => PInf
  | NInf, _ | _, NInf => NInf
  end.

Definition num_sub (x y : number) : number := num_add x (num_opp y).

(** The infinity with the sign of [q]; [0 * inf] is not a number. *)
Definition signed_inf (q : Qc) : number :=
  if decide (q = 0%Qc) then NaN
  else if decide (0 < q)%Qc then PInf else NInf.

Definition num_mul (x y : number) : number :=
  match x, y with
  | NaN, _ | _, NaN => NaN
  | Fin a, Fin b => Fin (a * b)%Qc
  | Fin a, PInf | PInf, Fin a => signed_inf a
  | Fin a, NInf | NInf, Fin a => num_opp (signed_inf a)
  | PInf, PInf | NInf, NInf => PInf
  | PInf, NInf | NInf, PInf => NInf
  end.

(** numpy's true division: a zero divisor does not raise, it yields
    [inf], [-inf] or [nan] (with a RuntimeWarning only). *)
Definition num_div (x y : number) : number :=
  match x, y with
  | NaN, _ | _, NaN => NaN
  | Fin a, Fin b =>
      if decide (b = 0%Qc) then signed_inf a else Fin (a / b)%Qc
  | Fin _, (PInf | NInf) => Fin 0%Qc
  | PInf, Fin b => if decide (0 ≤ b)%Qc then PInf else NInf
  | NInf, Fin b => if decide (0 ≤ b)%Qc then NInf else PInf
  | (PInf | NInf), (PInf | NInf) => NaN
  end.


(** ** Formatting: the format specification [".2f"] and [str]

    Python rounds the exact value to the nearest hundredth, ties to the
    even neighbour, and keeps the sign of a negative value even when it
    rounds to zero. *)

Definition round_half_even (q : Q) : Z :=
  let f := Qfloor q in
  match Qcompare (q - inject_Z f) (1 # 2) with
  | Lt => f
  | Gt => f + 1
  | Eq => if Z.even f then f else f + 1
  end.

(** The hundredths of [|q|], rounded. *)
Definition hundredths (q : Qc) : Z :=
  round_half_even (Qabs q * inject_Z 100).

Definition digit (d : Z) : string :=
  String (pretty_N_char (Z.to_N d)) EmptyString.

Definition fixed2 (q : Qc) : string :=
  let n := hundredths q in
  (if decide (q < 0)%Qc then "-" else "")
    +:+ pretty (Z.to_N (n / 100)) +:+ "."
    +:+ digit (n / 10 mod 10) +:+ digit (n mod 10).

(** [f"{x:.2f}"] for a Python [int] or [float]. *)
Definition format_2f (x : number) : string :=
  match x with
  | Fin q => fixed2 q
  | PInf => "inf"
  | NInf => "-inf"
  | NaN => "nan"
  end.

(** ** Timestamps

    Line 14 parses the [Date] column with [format="%d/%m/%Y"], so every
    timestamp is a calendar date at midnight; it is modelled as the number
    of days since 1970-01-01.  [str] of a pandas Timestamp prints the
    civil date followed by the time of day. *)

Definition civil_of_days (days : Z) : Z * Z * Z :=
  let z := days + 719468 in
  let era := z / 146097 in
  let doe := z - era * 146097 in
  let yoe := (doe - doe / 1460 + doe / 36524 - doe / 146096) / 365 in
  let doy := doe - (365 * yoe + yoe / 4 - yoe / 100) in
  let mp := (5 * doy + 2) / 153 in
  let d := doy - (153 * mp + 2) / 5 + 1 in
  let m := if decide (mp < 10) then mp + 3 else mp - 9 in
  let y := yoe + era * 400 + (if decide (m ≤ 2) then 1 else 0) in
  (y, m, d).

Definition pad2 (n : Z) : string := digit (n / 10 mod 10) +:+ digit (n mod 10).

Definition pad4 (n : Z) : string := pad2 (n / 100) +:+ pad2 n.

Definition str_timestamp (t : Z) : string :=
  let '(y, m, d) := civil_of_days t in
  pad4 y +:+ "-" +:+ pad2 m +:+ "-" +:+ pad2 d +:+ " 00:00:00".

(** ** Cell values, labels, frames *)

Inductive value : Type :=
| VNum (x : number)   (* int / float; a missing number is [VNum NaN] *)
| VStr (s : string)
| VTime (t : Z)       (* pandas Timestamp *)
| VNaT.               (* missing timestamp *)

Global Instance value_eq_dec : EqDecision value.
Proof. solve_decision. Defined.

(** [isinstance(v, (int, float))]. *)
Definition is_int_or_float (v : value) : bool :=
  match v with VNum _ => true | _ => false end.

(** Row labels and column names are both pandas index entries: strings
    in a CSV header, integers in a RangeIndex; a transposition swaps the
    two axes. *)
Inductive label : Type :=
| LInt (z : Z)
| LStr (s : string).

Global Instance label_eq_dec : EqDecision label.
Proof. solve_decision. Defined.

Definition value_of_label (l : label) : value :=
  match l with
  | LInt z => VNum (of_Z z)
  | LStr s => VStr s
  end.

Global Instance label_countable : Countable label :=
  inj_countable'
    (λ l, match l with LInt z => inl z | LStr s => inr s end)
    (λ x, match x with inl z => LInt z | inr s => LStr s end)
    (λ l, match l with LInt _ | LStr _ => eq_refl end).

(** A row is its label and its cells by column name (what [df.iloc[i]]
    shows); the frame keeps the order of the columns. *)
Record Row : Type := mkRow { row_label : label; cells : gmap label value }.

Global Instance Row_eq_dec : EqDecision Row.
Proof. solve_decision. Defined.

Record DataFrame : Type := mkFrame { columns : list label; rows : list Row }.

Global Instance DataFrame_eq_dec : EqDecision DataFrame.
Proof. solve_decision. Defined.

(** A column read out of a frame: the values with their row labels. *)
Definition Series : Type := list (label * value).

(** The cell of row [r] in column [c]; an empty cell reads as missing. *)
Definition cell (c : label) (r : Row) : value :=
  default (VNum NaN) (cells r !! c).

Definition values (s : Series) : list value := map snd s.

(** [df.empty]: some axis has length 0. *)
Definition df_empty (df : DataFrame) : bool :=
  bool_decide (columns df = []) || bool_decide (rows df = []).

(** [s.iloc[-k]] for [k = 1, 2]: the k-th value from the end. *)
Definition iloc_neg (k : nat) (s : Series) : option value :=
  if decide (0 < k ≤ length s)%nat then values s !! (length s - k)%nat
  else None.

(** ** Exceptions, the store of frames, and the monad of the server code

    A Python variable holds a reference to a DataFrame object.  The store
    maps references to the frames they denote; an operation that pandas
    documents as returning a new object allocates, an assignment to a
    column or to [df.columns] updates the object in place. *)

Inductive exn : Type :=
| KeyError (key : label)
| TypeError
| ValueError
| IndexError
| NameError.

Inductive result (A : Type) : Type :=
| Ok (a : A)
| Raise (e : exn).

Arguments Ok {A} a.
Arguments Raise {A} e.

Abbreviation loc := nat.

Abbreviation store := (gmap nat DataFrame).

Definition M (A : Type) : Type := store → result A * store.

Definition ret {A} (a : A) : M A := λ σ, (Ok a, σ).

Definition raise {A} (e : exn) : M A := λ σ, (Raise e, σ).

Definition bind {A B} (m : M A) (k : A → M B) : M B :=
  λ σ, match m σ with
       | (Ok a, σ') => k a σ'
       | (Raise e, σ') => (Raise e, σ')
       end.

Definition lift {A} (r : result A) : M A := λ σ, (r, σ).

Notation "'let!' x ':=' m 'in' k" := (bind m (λ x, k))
  (at level 10, x pattern, m at level 100, k at level 200,
   format "'[v' 'let!'  x  ':='  m  'in' '/' k ']'").

Definition result_bind {A B} (r : result A) (k : A → result B) : result B :=
  match r with
  | Ok a => k a
  | Raise e => Raise e
  end.

Fixpoint result_mapM {A B} (f : A → result B) (l : list A) : result (list B) :=
  match l with
  | [] => Ok []
  | x :: l' =>
      result_bind (f x) (λ y,
      result_bind (result_mapM f l') (λ ys, Ok (y :: ys)))
  end.

Definition fresh_loc (σ : store) : loc := fresh (dom σ).

Definition alloc (df : DataFrame) : M loc :=
  λ σ, (Ok (fresh_loc σ), <[fresh_loc σ := df]> σ).

Definition deref (l : loc) : M DataFrame :=
  λ σ, match σ !! l with
       | Some df => (Ok df, σ)
       | None => (Raise NameError, σ)
       end.

Definition update (l : loc) (df : DataFrame) : M unit :=
  λ σ, (Ok tt, <[l := df]> σ).

(** ** The sorting algorithm behind [sort_values]

    [sort_values] is called without [kind], so numpy's default
    ["quicksort"] orders the keys.  Its contract is that of [argsort]:
    the indexer is a permutation of the positions and reads the keys in
    non-decreasing order.  Which of several equal keys comes first is left
    to the algorithm (pandas: only ["mergesort"] and ["stable"] are
    stable). *)

Class ArgSort : Type := {
  argsort : list Z → list nat;
  argsort_perm : ∀ ks, argsort ks ≡ₚ seq 0 (length ks);
  argsort_sorted : ∀ ks, Sorted Z.le (omap (λ i, ks !! i) (argsort ks));
}.

(** ** pandas operations *)

(** The column [name] of the rows [rs]. *)
Definition col_of (name : label) (rs : list Row) : Series :=
  map (λ r, (row_label r, cell name r)) rs.

(** [df[name]] on the frame itself: the column, or KeyError. *)
Definition column (df : DataFrame) (name : label) : result Series :=
  if decide (name ∈ columns df)
  then Ok (col_of name (rows df))
  else Raise (KeyError name).

(** A cell of a datetime64 column is a Timestamp or NaT; comparing or
    ordering anything else against a Timestamp is a TypeError. *)
Definition as_datetime (v : value) : result (option Z) :=
  match v with
  | VTime t => Ok (Some t)
  | VNaT => Ok None
  | _ => Raise TypeError
  end.

(** [s >= t] and [s <= t] element by element; NaT compares false. *)
Definition cmp_time (test : Z → Z → bool) (s : Series) (t : Z)
  : result (list bool) :=
  result_mapM (λ v, result_bind (as_datetime v) (λ o,
     Ok (match o with Some u => test u t | None => false end))) (values s).

(** [s == x] for a [str] [x]: equality of Python objects, never raises. *)
Definition eq_str (s : Series) (x : string) : list bool :=
  map (λ v, bool_decide (v = VStr x)) (values s).

(** [m1 & m2] *)
Definition mask_and (m1 m2 : list bool) : list bool := zip_with andb m1 m2.

(** The rows a boolean mask keeps, in their order. *)
Fixpoint select {A} (mask : list bool) (l : list A) : list A :=
  match mask, l with
  | b :: mask', x :: l' => if b then x :: select mask' l' else select mask' l'
  | _, _ => []
  end.

(** [take]: the rows at the positions of the indexer. *)
Definition take_rows (indexer : list nat) (rs : list Row) : list Row :=
  omap (λ i, rs !! i) indexer.

(** pandas' [nargsort] with [na_position="last"]: the positions of the
    non-missing keys, ordered by [argsort] of those keys, then the
    positions of the missing ones. *)
Definition nargsort `{ArgSort} (items : list (option Z)) : list nat :=
  let idx := seq 0 (length items) in
  let non_nan_idx := List.filter (λ i, bool_decide (is_Some (mjoin (items !! i)))) idx in
  let nan_idx := List.filter (λ i, negb (bool_decide (is_Some (mjoin (items !! i))))) idx in
  let non_nans := omap id items in
  omap (λ j, non_nan_idx !! j) (argsort non_nans) ++ nan_idx.

(** Trailing window of [w] observations ending at position [i]. *)
Definition window_at {A} (w i : nat) (l : list A) : list A :=
  drop (i + 1 - w) (take (i + 1) l).

Definition as_number (v : value) : result number :=
  match v with
  | VNum x => Ok x
  | _ => Raise TypeError
  end.

Definition num_sum (xs : list number) : number :=
  foldl num_add (Fin 0%Qc) xs.

(** The mean of the observations of a window, when it holds at least
    [min_periods] of them (missing values do not count). *)
Definition window_mean (min_periods : nat) (win : list number) : number :=
  let obs := List.filter (λ x, negb (bool_decide (x = NaN))) win in
  if decide (min_periods ≤ length obs ∧ 0 < length obs)%nat
  then num_div (num_sum obs) (of_Z (Z.of_nat (length obs)))
  else NaN.

(** [s.rolling(window=w).mean()]: [min_periods] defaults to [w].  pandas
    keeps a running sum as the window slides; on closes without
    infinities, which is where the properties below use it, that is the
    mean of each window. *)
Definition rolling_mean (w : nat) (s : Series) : result Series :=
  result_bind (result_mapM as_number (values s)) (λ xs,
  Ok (imap (λ i p, (p.1, VNum (window_mean w (window_at w i xs)))) s)).

(** The value a Series holds for a row label; assignment aligns on it. *)
Fixpoint series_get (k : label) (s : Series) : value :=
  match s with
  | [] => VNum NaN
  | (k', v) :: s' => if decide (k' = k) then v else series_get k s'
  end.

(** [df[name] = s] on the frame itself: the column is replaced, or
    added after the last one. *)
Definition set_column (name : label) (s : Series) (df : DataFrame) : DataFrame :=
  mkFrame
    (if decide (name ∈ columns df) then columns df else columns df ++ [name])
    (map (λ r, mkRow (row_label r)
                 (<[name := series_get (row_label r) s]> (cells r))) (rows df)).

(** [df.T] on the frame itself: the row labels become the column names
    and each column becomes a row. *)
Definition transpose (df : DataFrame) : DataFrame :=
  mkFrame (map row_label (rows df))
    (map (λ c, mkRow c (list_to_map (map (λ r, (row_label r, cell c r)) (rows df))))
       (columns df)).

(** The frame of [df.reset_index(drop=...)]: a fresh RangeIndex; unless
    dropped, the old labels become the first column. *)
Definition index_name (df : DataFrame) : label :=
  if bool_decide (LStr "index" ∈ columns df) then LStr "level_0" else LStr "index".

Definition with_range_index (drop_old : bool) (df : DataFrame) : DataFrame :=
  if drop_old then
    mkFrame (columns df)
      (imap (λ i r, mkRow (LInt (Z.of_nat i)) (cells r)) (rows df))
  else
    mkFrame (index_name df :: columns df)
      (imap (λ i r, mkRow (LInt (Z.of_nat i))
                      (<[index_name df := value_of_label (row_label r)]> (cells r)))
         (rows df)).

(** [df.columns = names] on the frame itself: the columns are renamed by
    position. *)
Definition rename_columns (names : list label) (df : DataFrame) : DataFrame :=
  mkFrame names
    (map (λ r, mkRow (row_label r)
                 (list_to_map (zip names (map (λ c, cell c r) (columns df)))))
       (rows df)).

Definition series_apply (f : value → value) (s : Series) : Series :=
  map (λ p, (p.1, f p.2)) s.

(** ** pandas operations on references *)

(** [df.copy()] *)
Definition df_copy (l : loc) : M loc :=
  let! df := deref l in
  alloc df.

(** [name in df.columns] *)
Definition has_column (l : loc) (name : string) : M bool :=
  let! df := deref l in
  ret (bool_decide (LStr name ∈ columns df)).

(** [df[name]] *)
Definition getitem (l : loc) (name : string) : M Series :=
  let! df := deref l in
  lift (column df (LStr name)).

(** [len(df)] *)
Definition len (l : loc) : M nat :=
  let! df := deref l in
  ret (length (rows df)).

(** [df[mask]] and [df.loc[mask]] for a boolean mask computed from the
    frame's own columns: a new frame with the rows the mask keeps. *)
Definition getitem_mask (l : loc) (mask : list bool) : M loc :=
  let! df := deref l in
  if decide (length mask = length (rows df))
  then alloc (mkFrame (columns df) (select mask (rows df)))
  else raise ValueError.

Definition loc_mask (l : loc) (mask : list bool) : M loc := getitem_mask l mask.

(** [df.sort_values(by)] on a datetime64 column: a new frame
    ([inplace=False]), ascending, missing keys last, default [kind]. *)
Definition sort_values `{ArgSort} (l : loc) (by_ : string) : M loc :=
  let! df := deref l in
  let! k := lift (column df (LStr by_)) in
  let! items := lift (result_mapM as_datetime (values k)) in
  alloc (mkFrame (columns df) (take_rows (nargsort items) (rows df))).

(** [df.reset_index(drop=True)] and [df.reset_index()]: a new frame. *)
Definition reset_index (drop_old : bool) (l : loc) : M loc :=
  let! df := deref l in
  alloc (with_range_index drop_old df).

(** [df[name] = s]: the frame the reference denotes changes. *)
Definition setitem (l : loc) (name : string) (s : Series) : M unit :=
  let! df := deref l in
  update l (set_column (LStr name) s df).

(** [df.columns = names]: in place; the lengths must agree. *)
Definition set_columns (l : loc) (names : list string) : M unit :=
  let! df := deref l in
  if decide (length names = length (columns df))
  then update l (rename_columns (map LStr names) df)
  else raise ValueError.

(** [df.iloc[-1:]]: a new frame object holding the last row, if there is
    one (pandas may share the data with [df]; nothing is written through
    it). *)
Definition iloc_last (l : loc) : M loc :=
  let! df := deref l in
  alloc (mkFrame (columns df) (drop (length (rows df) - 1) (rows df))).

(** [df.T] *)
Definition df_T (l : loc) : M loc :=
  let! df := deref l in
  alloc (transpose df).

(** [s.iloc[-k]], or IndexError. *)
Definition iloc (s : Series) (k : nat) : result value :=
  match iloc_neg k s with
  | Some v => Ok v
  | None => Raise IndexError
  end.

(** Arithmetic on what [iloc] returns: numbers compute (numpy scalars do
    not raise on a zero divisor), anything else is a TypeError. *)
Definition value_arith (op : number → number → number) (a b : value)
  : result value :=
  match a, b with
  | VNum x, VNum y => Ok (VNum (op x y))
  | _, _ => Raise TypeError
  end.

(** [x >= 0]; every comparison with NaN is false. *)
Definition num_ge0 (x : number) : bool :=
  match x with
  | Fin q => bool_decide (0 ≤ q)%Qc
  | PInf => true
  | NInf | NaN => false
  end.

(** [f"{v:.2f}"]: numbers only; a [str] has no format code ['f']. *)
Definition py_format_2f (v : value) : result string :=
  match v with
  | VNum x => Ok (format_2f x)
  | _ => Raise ValueError
  end.

(** ** The figure of [price_history]

    A plotly figure is the list of its traces; [update_layout] only sets
    styling (hover mode, legend, colours) and is not modelled. *)

Inductive Trace : Type :=
| Candlestick (x open high low close : list value) (name : string)
| Scatter (x y : list value) (name : string).

Record Figure : Type := mkFigure { fig_data : list Trace }.

Definition add_scatter (fig : Figure) (x y : Series) (name : string) : Figure :=
  mkFigure (fig_data fig ++ [Scatter (values x) (values y) name]).

(** ** The server logic (app.py, lines 61-156) *)

Section Server.

Context `{!ArgSort}.

(** [str] of a finite number is its shortest round-trip representation,
    which depends on the binary digits abstracted here; it is left open.
    The program never asks for it: see [render]. *)
Variable repr_finite : Qc → string.

Definition py_str (v : value) : string :=
  match v with
  | VNum (Fin q) => repr_finite q
  | VNum PInf => "inf"
  | VNum NInf => "-inf"
  | VNum NaN => "nan"
  | VStr s => s
  | VTime t => str_timestamp t
  | VNaT => "NaT"
  end.

(** [get_data] (lines 62-75).  [data_all] is the reference held by the
    module-level variable, [ticker] is [input.ticker()] and [dates] is
    [input.dates()], both ends already converted by [pd.to_datetime]. *)
Definition get_data (data_all : loc) (ticker : string) (dates : Z * Z) : M loc :=
  let! df := df_copy data_all in
  let! has_ticker := has_column df "Ticker" in
  let! df := (if has_ticker : bool then
                let! t := getitem df "Ticker" in
                getitem_mask df (eq_str t ticker)
              else ret df) in
  let! d1 := getitem df "Date" in
  let! m1 := lift (cmp_time Z.geb d1 dates.1) in
  let! d2 := getitem df "Date" in
  let! m2 := lift (cmp_time Z.leb d2 dates.2) in
  let! df := loc_mask df (mask_and m1 m2) in
  sort_values df "Date".

(** [get_change] (lines 77-80); [df] is what [get_data()] returned. *)
Definition get_change (df : loc) : M value :=
  let! close := getitem df "Close" in
  if decide (1 < length close)%nat then
    let! a := lift (iloc close 1) in
    let! b := lift (iloc close 2) in
    lift (value_arith num_sub a b)
  else ret (VNum (of_Z 0)).

(** [get_change_percent] (lines 82-88). *)
Definition get_change_percent (df : loc) : M value :=
  let! close := getitem df "Close" in
  if decide (1 < length close)%nat then
    let! a := lift (iloc close 1) in
    let! b := lift (iloc close 2) in
    let! change := lift (value_arith num_sub a b) in
    let! b' := lift (iloc close 2) in
    let! q := lift (value_arith num_div change b') in
    lift (value_arith num_mul q (VNum (of_Z 100)))
  else ret (VNum (of_Z 0)).

(** [price] (lines 90-93). *)
Definition price (df : loc) : M string :=
  let! close := getitem df "Close" in
  if negb (bool_decide (close = [])) then
    let! v := lift (iloc close 1) in
    lift (py_format_2f v)
  else ret "N/A".

(** [change] (lines 95-97). *)
Definition change (df : loc) : M string :=
  let! c := get_change df in
  let! s := lift (py_format_2f c) in
  ret ("$" +:+ s).

(** [change_icon] (lines 99-104): the icon and its CSS class. *)
Definition change_icon (df : loc) : M (string * string) :=
  let! c := get_change df in
  let! x := lift (as_number c) in
  ret (if num_ge0 x then "arrow-up" else "arrow-down",
       "text-" +:+ (if num_ge0 x then "success" else "danger")).

(** [change_percent] (lines 106-108). *)
Definition change_percent (df : loc) : M string :=
  let! c := get_change_percent df in
  let! s := lift (py_format_2f c) in
  ret (s +:+ "%").

(** [price_history] (lines 110-145). *)
Definition price_history (df0 : loc) (ticker : string) : M Figure :=
  let! df := reset_index true df0 in
  let! x := getitem df "Date" in
  let! o := getitem df "Open" in
  let! h := getitem df "High" in
  let! l := getitem df "Low" in
  let! c := getitem df "Close" in
  let fig := mkFigure [Candlestick (values x) (values o) (values h)
                         (values l) (values c) ticker] in
  let! n := len df in
  if decide (7 ≤ n)%nat then
    let! close := getitem df "Close" in
    let! sma := lift (rolling_mean 7 close) in
    let! _ := setitem df "SMA" sma in
    let! x := getitem df "Date" in
    let! y := getitem df "SMA" in
    ret (add_scatter fig x y "SMA (7)")
  else ret fig.

(** The lambda of line 155. *)
Definition render (v : value) : value :=
  VStr (match v with
        | VNum x => format_2f x   (* isinstance(v, (int, float)) *)
        | _ => py_str v
        end).

(** [latest_data] (lines 147-156). *)
Definition latest_data (df : loc) : M loc :=
  let! d := deref df in
  if df_empty d then
    alloc (mkFrame [LStr "Category"; LStr "Value"] [])
  else
    let! last := iloc_last df in
    let! t := df_T last in
    let! latest := reset_index false t in
    let! _ := set_columns latest ["Category"; "Value"] in
    let! v := getitem latest "Value" in
    let! _ := setitem latest "Value" (series_apply render v) in
    ret latest.

(** One reactive flush.  [get_data] is a [reactive.calc]: it runs once
    and every output reads the frame it returned (or re-raises its
    error); each output is rendered on its own, so an output that raises
    does not stop the others. *)
Definition try {A} (m : M A) : M (result A) :=
  λ σ, let '(r, σ') := m σ in (Ok r, σ').

Definition on_data {A} (d : result loc) (stage : loc → M A) : M (result A) :=
  match d with
  | Ok df => try (stage df)
  | Raise e => ret (Raise e)
  end.

Record Outputs : Type := mkOutputs {
  out_price : result string;
  out_change : result string;
  out_change_icon : result (string * string);
  out_change_percent : result string;
  out_price_history : result Figure;
  out_latest_data : result loc;
}.

Definition flush (data_all : loc) (ticker : string) (dates : Z * Z) : M Outputs :=
  let! d := try (get_data data_all ticker dates) in
  let! p := on_data d price in
  let! c := on_data d change in
  let! i := on_data d change_icon in
  let! cp := on_data d change_percent in
  let! ph := on_data d (λ df, price_history df ticker) in
  let! ld := on_data d latest_data in
  ret (mkOutputs p c i cp ph ld).

End Server.

(** ** Module start-up (app.py, lines 13-17 and 22)

    [pd.read_csv] has put the file in the store as a frame, and
    [data_all] refers to it.  The module then parses the Date column in
    place, lists the instruments and computes the default date range; the
    page is built with the first instrument selected. *)

(** [s.unique()]: the distinct values, in the order in which they first
    appear. *)
Fixpoint unique_from (seen vs : list value) : list value :=
  match vs with
  | [] => []
  | v :: vs' =>
      if decide (v ∈ seen) then unique_from seen vs'
      else v :: unique_from (v :: seen) vs'
  end.

Definition unique (s : Series) : list value := unique_from [] (values s).

(** [s.max()] on a datetime64 column: the latest Timestamp, missing
    cells skipped; NaT when nothing is left. *)
Definition max_time (ts : list (option Z)) : option Z :=
  foldr (λ o acc, match o, acc with
                  | Some t, Some u => Some (Z.max t u)
                  | Some t, None => Some t
                  | None, _ => acc
                  end) None ts.

Definition series_max (s : Series) : result (option Z) :=
  result_bind (result_mapM as_datetime (values s)) (λ ts, Ok (max_time ts)).

(** [t - pd.Timedelta(weeks=w)]; NaT stays NaT. *)
Definition minus_weeks (t : option Z) (w : Z) : option Z :=
  (λ d, d - 7 * w) <$> t.

Definition timestamp_value (o : option Z) : value :=
  match o with Some t => VTime t | None => VNaT end.

(** The module-level names the page and the server read. *)
Record Globals : Type := mkGlobals {
  tickers : list value;
  end_ : option Z;
  start : option Z;
}.

Section Startup.

(** How pandas reads a cell that is not missing against the format
    ["%d/%m/%Y"] (a Timestamp, NaT for an empty or ["NaT"] string, or an
    error) is left open. *)
Variable strptime : value → result (option Z).

(** [pd.to_datetime(s, format="%d/%m/%Y")], cell by cell: a missing
    value becomes NaT and a datetime stays what it is. *)
Definition to_datetime_cell (v : value) : result value :=
  match v with
  | VTime t => Ok (VTime t)
  | VNaT | VNum NaN => Ok VNaT
  | _ => result_bind (strptime v) (λ o, Ok (timestamp_value o))
  end.

Definition to_datetime (s : Series) : result Series :=
  result_bind (result_mapM to_datetime_cell (values s)) (λ vs,
  Ok (zip (map fst s) vs)).

(** Line 14. *)
Definition parse_dates (data_all : loc) : M unit :=
  let! d := getitem data_all "Date" in
  let! parsed := lift (to_datetime d) in
  setitem data_all "Date" parsed.

(** Line 15. *)
Definition list_tickers (data_all : loc) : M (list value) :=
  let! has_ticker := has_column data_all "Ticker" in
  if has_ticker : bool then
    let! t := getitem data_all "Ticker" in
    ret (unique t)
  else ret [VStr "LOCAL"].

(** Line 16. *)
Definition latest_date (data_all : loc) : M (option Z) :=
  let! d := getitem data_all "Date" in
  lift (series_max d).

(** Lines 14-17. *)
Definition module_init (data_all : loc) : M Globals :=
  let! _ := parse_dates data_all in
  let! tickers := list_tickers data_all in
  let! e := latest_date data_all in
  ret (mkGlobals tickers e (minus_weeks e 12)).

(** Line 22: [selected=tickers[0]]. *)
Definition selected_ticker (g : Globals) : result value :=
  match tickers g with
  | t :: _ => Ok t
  | [] => Raise IndexError
  end.

(** The module up to the construction of the page. *)
Definition app_start (data_all : loc) : M (Globals * value) :=
  let! g := module_init data_all in
  let! selected := lift (selected_ticker g) in
  ret (g, selected).

End Startup.

(** * The vocabulary of the properties *)

(** ** Reading a run *)

(** The frame a run returned, and the labels of its rows. *)
Definition frame_of (r : result loc * store) : option DataFrame :=
  match r with
  | (Ok l, σ') => σ' !! l
  | (Raise _, _) => None
  end.

Definition labels_of (df : DataFrame) : list label := map row_label (rows df).

(** ** The filter stage *)

(** A cell of a datetime64 column. *)
Definition is_datetime (v : value) : bool :=
  match v with VTime _ | VNaT => true | _ => false end.

(** What lines 13-14 establish for [data_all]: there is a Date column and
    it is a datetime64 column (each cell a Timestamp or NaT). *)
Definition date_parsed (df : DataFrame) : Prop :=
  LStr "Date" ∈ columns df
  ∧ Forall (λ r, is_datetime (cell (LStr "Date") r)) (rows df).

(** The timestamp of a row, if it has one. *)
Definition row_time (r : Row) : option Z :=
  match cell (LStr "Date") r with
  | VTime t => Some t
  | _ => None
  end.

Definition in_range (s e : Z) (r : Row) : bool :=
  match row_time r with
  | Some t => (s <=? t) && (t <=? e)
  | None => false
  end.

Definition ticker_is (tk : string) (r : Row) : bool :=
  bool_decide (cell (LStr "Ticker") r = VStr tk).

(** The rows of a selection: the instrument (when the frame has a Ticker
    column) and the closed date range. *)
Definition selected (cols : list label) (tk : string) (s e : Z) (r : Row) : bool :=
  (if bool_decide (LStr "Ticker" ∈ cols) then ticker_is tk r else true)
  && in_range s e r.

Definition retained (df : DataFrame) (tk : string) (s e : Z) : list Row :=
  List.filter (selected (columns df) tk s e) (rows df).

(** The rows in the order [sort_values("Date")] gives them. *)
Definition sorted_by_date `{ArgSort} (rs : list Row) : list Row :=
  take_rows (nargsort (map row_time rs)) rs.

(** The frame [get_data] returns for the dataset [df]. *)
Definition filtered `{ArgSort} (df : DataFrame) (tk : string) (s e : Z) : DataFrame :=
  mkFrame (columns df) (sorted_by_date (retained df tk s e)).


(** An instrument that the Ticker column of the frame does not hold. *)
Definition unknown_ticker (df : DataFrame) (tk : string) : Prop :=
  LStr "Ticker" ∈ columns df
  ∧ Forall (λ r, cell (LStr "Ticker") r ≠ VStr tk) (rows df).


(** ** Two algorithms that meet the contract of [argsort]

    Both sort the keys, paired with their positions, by insertion from
    the right.  The first puts a key before the equal keys already
    placed, which keeps equal keys in their original order; the second
    puts it after them, which reverses equal keys.  Either is a sorting
    algorithm in the sense of [ArgSort]. *)

Fixpoint insert_key (before_equal : bool) (p : Z * nat) (l : list (Z * nat))
  : list (Z * nat) :=
  match l with
  | [] => [p]
  | q :: l' =>
      if (if before_equal then p.1 <=? q.1 else p.1 <? q.1)
      then p :: q :: l'
      else q :: insert_key before_equal p l'
  end.

Definition insertion_sort (before_equal : bool) (l : list (Z * nat))
  : list (Z * nat) :=
  foldr (insert_key before_equal) [] l.

Definition insertion_argsort (before_equal : bool) (ks : list Z) : list nat :=
  (insertion_sort before_equal (zip ks (seq 0 (length ks)))).*2.

Definition key_le (p q : Z * nat) : Prop := p.1 ≤ q.1.

(** ** The shape of [".2f"] *)




(** ** The chart and the snapshot *)

Definition ohlc_columns : list label :=
  LStr <$> ["Date"; "Open"; "High"; "Low"; "Close"].

(** The frame has the five columns the candlestick reads. *)
Definition has_ohlc (df : DataFrame) : Prop :=
  Forall (λ c, c ∈ columns df) ohlc_columns.

Definition candle_of (rs : list Row) (tk : string) : Trace :=
  Candlestick (map (cell (LStr "Date")) rs) (map (cell (LStr "Open")) rs)
    (map (cell (LStr "High")) rs) (map (cell (LStr "Low")) rs)
    (map (cell (LStr "Close")) rs) tk.

(** The close of a row as a number. *)
Definition close_number (r : Row) : number :=
  match cell (LStr "Close") r with
  | VNum x => x
  | _ => NaN
  end.

(** The overlay: one value per row, the mean of the trailing window. *)
Definition sma_values (rs : list Row) : list value :=
  imap (λ i _, VNum (window_mean 7 (window_at 7 i (map close_number rs)))) rs.


(** The frame [latest_data] builds from the last row [r] of a frame with
    the columns [cols]: one row per column, in the order of the columns. *)
Definition snapshot_frame (repr_finite : Qc → string) (cols : list label)
    (r : Row) : DataFrame :=
  mkFrame [LStr "Category"; LStr "Value"]
    (imap (λ j c,
       mkRow (LInt (Z.of_nat j))
         (<[LStr "Value" := render repr_finite (cell c r)]>
            (list_to_map [(LStr "Category", value_of_label c);
                          (LStr "Value", cell c r)]))) cols).

(** ** Frames: what a run may change in the store

    [keeps σ0 m Q]: started from any store that still holds every frame
    of [σ0] unchanged, [m] ends in such a store, whether it returns or
    raises, and a returned value satisfies [Q].  An allocation returns a
    reference outside [σ0]; an in-place update is allowed only through
    such a reference. *)

Definition keeps {A} (σ0 : store) (m : M A) (Q : A → Prop) : Prop :=
  ∀ σ, σ0 ⊆ σ → σ0 ⊆ (m σ).2 ∧ ∀ a, (m σ).1 = Ok a → Q a.

Definition outside (σ0 : store) (l : loc) : Prop := σ0 !! l = None.

(** ** Displays, read-only stages, the parsed dataset *)


(** [reads m]: a run of [m] returns the store it was given. *)
Definition reads {A} (m : M A) : Prop := ∀ σ, (m σ).2 = σ.

(** The frame line 14 leaves: the Date cells replaced by [vs]. *)
Definition with_dates (vs : list value) (D : DataFrame) : DataFrame :=
  mkFrame (columns D)
    (zip_with (λ r v, mkRow (row_label r) (<[LStr "Date" := v]> (cells r)))
       (rows D) vs).

(** ** Sample data *)

Definition sample_columns : list label :=
  LStr <$> ["Date"; "Ticker"; "Open"; "High"; "Low"; "Close"].

(** A row of instrument [tk] on day [d] whose four prices are [c]. *)
Definition sample_row (i d : Z) (tk : string) (c : number) : Row :=
  mkRow (LInt i)
    (list_to_map [(LStr "Date", VTime d); (LStr "Ticker", VStr tk);
                  (LStr "Open", VNum c); (LStr "High", VNum c);
                  (LStr "Low", VNum c); (LStr "Close", VNum c)]).

(** Consecutive days from 2024-01-01 with the given closes. *)
Definition sample_frame (closes : list Z) : DataFrame :=
  mkFrame sample_columns
    (imap (λ i c, sample_row (Z.of_nat i) (19723 + Z.of_nat i) "DMA1" (of_Z c))
       closes).

(** Five observations, not in date order; rows 3 and 4 are two
    observations of DMA1 on the same day, in that order. *)
Definition sample_dataset : DataFrame :=
  mkFrame sample_columns
    [sample_row 0 19725 "DMA1" (of_Z 12);
     sample_row 1 19723 "DMA1" (of_Z 10);
     sample_row 2 19724 "DMA2" (of_Z 50);
     sample_row 3 19724 "DMA1" (of_Z 11);
     sample_row 4 19724 "DMA1" (of_Z 13)].

(** A dataset with the Date and Close columns only: no Ticker column and
    no Open, High or Low. *)
Definition close_only_row (i d : Z) (c : number) : Row :=
  mkRow (LInt i) (list_to_map [(LStr "Date", VTime d); (LStr "Close", VNum c)]).

Definition sample_close_only : DataFrame :=
  mkFrame [LStr "Date"; LStr "Close"]
    [close_only_row 0 19723 (of_Z 10); close_only_row 1 19724 (of_Z 11)].

(** Consecutive days from 2024-01-01 with the given closes, some of
    which may be missing. *)
Definition sample_closes (closes : list number) : DataFrame :=
  mkFrame sample_columns
    (imap (λ i c, sample_row (Z.of_nat i) (19723 + Z.of_nat i) "DMA1" c) closes).

(** A week of closes with a gap on the third day. *)
Definition sample_gap : DataFrame :=
  sample_closes [of_Z 1; of_Z 2; NaN; of_Z 4; of_Z 5; of_Z 6; of_Z 7].

(** A dataset with dates and instruments and no prices. *)
Definition sample_no_prices : DataFrame :=
  mkFrame [LStr "Date"; LStr "Ticker"]
    [mkRow (LInt 0) (list_to_map [(LStr "Date", VTime 19723);
                                  (LStr "Ticker", VStr "DMA1")]);
     mkRow (LInt 1) (list_to_map [(LStr "Date", VTime 19724);
                                  (LStr "Ticker", VStr "DMA1")])].

(** A file as [read_csv] returns it: the dates are still text, one of
    them is missing. *)
Definition raw_row (i : Z) (d : value) (tk : string) (c : Z) : Row :=
  mkRow (LInt i)
    (list_to_map [(LStr "Date", d); (LStr "Ticker", VStr tk);
                  (LStr "Close", VNum (of_Z c))]).

Definition sample_raw : DataFrame :=
  mkFrame [LStr "Date"; LStr "Ticker"; LStr "Close"]
    [raw_row 0 (VStr "02/01/2024") "DMA2" 50;
     raw_row 1 (VStr "01/01/2024") "DMA1" 10;
     raw_row 2 (VNum NaN) "DMA1" 11].

(** The same file with a date in another format in its second row. *)
Definition sample_raw_bad : DataFrame :=
  mkFrame [LStr "Date"; LStr "Ticker"; LStr "Close"]
    [raw_row 0 (VStr "02/01/2024") "DMA2" 50;
     raw_row 1 (VStr "2024-01-01") "DMA1" 10].

(** A reader that knows the two dates of the sample. *)
Definition sample_strptime (v : value) : result (option Z) :=
  if decide (v = VStr "01/01/2024") then Ok (Some 19723)
  else if decide (v = VStr "02/01/2024") then Ok (Some 19724)
  else Raise ValueError.

(** Two days whose closes were read as text (a thousands separator). *)
Definition text_row (i d : Z) (c : string) : Row :=
  mkRow (LInt i) (list_to_map [(LStr "Date", VTime d); (LStr "Close", VStr c)]).

Definition sample_text : DataFrame :=
  mkFrame [LStr "Date"; LStr "Close"]
    [text_row 0 19723 "1,200.00"; text_row 1 19724 "1,250.00"].

(** * Properties *)

(** ** The two insertion sorts meet the contract of [argsort] *)

Lemma insert_key_perm b p l : insert_key b p l ≡ₚ p :: l.
Proof.
  induction l as [|q l IH]; simpl; [done|].
  destruct (if b then _ else _); [done|].
  rewrite IH. apply Permutation_swap.
Qed.

Lemma insertion_sort_perm b l : insertion_sort b l ≡ₚ l.
Proof.
  induction l as [|p l IH]; simpl; [done|].
  by rewrite insert_key_perm, IH.
Qed.

Lemma insert_key_HdRel b p q l :
  key_le q p → HdRel key_le q l → HdRel key_le q (insert_key b p l).
Proof.
  intros Hqp Hl. destruct l as [|r l]; simpl; [by constructor|].
  destruct (if b then _ else _); constructor; [done|].
  by inversion Hl.
Qed.

Lemma insert_key_sorted b p l :
  Sorted key_le l → Sorted key_le (insert_key b p l).
Proof.
  induction 1 as [|q l Hl IH Hhd]; simpl; [by repeat constructor|].
  destruct (if b then _ else _) eqn:Hc.
  - constructor; [by constructor|]. constructor. unfold key_le.
    destruct b; lia.
  - constructor; [done|]. apply insert_key_HdRel; [|done].
    unfold key_le. destruct b; lia.
Qed.

Lemma insertion_sort_sorted b l : Sorted key_le (insertion_sort b l).
Proof.
  induction l as [|p l IH]; simpl; [constructor|].
  by apply insert_key_sorted.
Qed.

(** Reading the keys through the positions of a list of (key, position)
    pairs gives back the keys of the pairs. *)
Lemma read_keys_of_pairs (ks : list Z) (ps : list (Z * nat)) :
  Forall (λ p, ks !! p.2 = Some p.1) ps →
  omap (λ i, ks !! i) ps.*2 = ps.*1.
Proof.
  induction 1 as [|[k i] ps Hp _ IH]; csimpl in *; [done|].
  by rewrite Hp, IH.
Qed.

Lemma zip_seq_lookup (ks : list Z) :
  Forall (λ p : Z * nat, ks !! p.2 = Some p.1) (zip ks (seq 0 (length ks))).
Proof.
  apply Forall_forall. intros [k i] Hin.
  apply list_elem_of_lookup in Hin as [j Hj].
  apply lookup_zip_with_Some in Hj as (k' & i' & [= -> ->] & Hk & Hi).
  apply lookup_seq in Hi as [-> _]. done.
Qed.

Lemma insertion_argsort_perm b ks :
  insertion_argsort b ks ≡ₚ seq 0 (length ks).
Proof.
  unfold insertion_argsort. rewrite insertion_sort_perm.
  rewrite snd_zip; [done|]. by rewrite length_seq.
Qed.

Lemma insertion_argsort_sorted b ks :
  Sorted Z.le (omap (λ i, ks !! i) (insertion_argsort b ks)).
Proof.
  unfold insertion_argsort. rewrite read_keys_of_pairs.
  - apply (Sorted_fmap _ key_le); [done|]. apply insertion_sort_sorted.
  - rewrite insertion_sort_perm. apply zip_seq_lookup.
Qed.

(** The stable algorithm, and the one that reverses equal keys. *)
Definition stable_sorter : ArgSort :=
  {| argsort := insertion_argsort true;
     argsort_perm := insertion_argsort_perm true;
     argsort_sorted := insertion_argsort_sorted true |}.


(** ** Running the monad *)

Lemma bind_run {A B} (m : M A) (k : A → M B) σ a σ' :
  m σ = (Ok a, σ') → (let! x := m in k x) σ = k a σ'.
Proof. unfold bind. by intros ->. Qed.

Lemma bind_raise {A B} (m : M A) (k : A → M B) σ e σ' :
  m σ = (Raise e, σ') → (let! x := m in k x) σ = (Raise e, σ').
Proof. unfold bind. by intros ->. Qed.

Lemma deref_run σ l df : σ !! l = Some df → deref l σ = (Ok df, σ).
Proof. unfold deref. by intros ->. Qed.

Lemma fresh_loc_None (σ : store) : σ !! fresh_loc σ = None.
Proof. unfold fresh_loc. apply (not_elem_of_dom (D:=gset nat)). apply is_fresh. Qed.

Lemma getitem_run σ l df name :
  σ !! l = Some df → getitem l name σ = (column df (LStr name), σ).
Proof. intros H. unfold getitem. by rewrite (bind_run _ _ _ _ _ (deref_run _ _ _ H)). Qed.

Lemma has_column_run σ l df name :
  σ !! l = Some df →
  has_column l name σ = (Ok (bool_decide (LStr name ∈ columns df)), σ).
Proof. intros H. unfold has_column. by rewrite (bind_run _ _ _ _ _ (deref_run _ _ _ H)). Qed.

Lemma len_run σ l df : σ !! l = Some df → len l σ = (Ok (length (rows df)), σ).
Proof. intros H. unfold len. by rewrite (bind_run _ _ _ _ _ (deref_run _ _ _ H)). Qed.

Lemma column_Ok df name :
  name ∈ columns df → column df name = Ok (col_of name (rows df)).
Proof. intros H. unfold column. by rewrite decide_True. Qed.

Lemma column_KeyError df name :
  name ∉ columns df → column df name = Raise (KeyError name).
Proof. intros H. unfold column. by rewrite decide_False. Qed.

Lemma length_col_of name rs : length (col_of name rs) = length rs.
Proof. unfold col_of. by rewrite length_map. Qed.

Lemma values_col_of name rs : values (col_of name rs) = map (cell name) rs.
Proof. unfold values, col_of. rewrite map_map. done. Qed.

Lemma iloc_1_col_of name rs r :
  iloc (col_of name (rs ++ [r])) 1 = Ok (cell name r).
Proof.
  unfold iloc, iloc_neg. rewrite values_col_of, length_col_of, length_app. simpl.
  rewrite decide_True by lia. rewrite map_app.
  rewrite lookup_app_r; rewrite length_map; [|lia].
  by replace (length rs + 1 - 1 - length rs)%nat with 0%nat by lia.
Qed.

Lemma iloc_1_col_of' name rs r2 r1 :
  iloc (col_of name (rs ++ [r2; r1])) 1 = Ok (cell name r1).
Proof. by rewrite (cons_middle r2 rs [r1]), (assoc_L (++)), iloc_1_col_of. Qed.

Lemma iloc_2_col_of name rs r2 r1 :
  iloc (col_of name (rs ++ [r2; r1])) 2 = Ok (cell name r2).
Proof.
  unfold iloc, iloc_neg. rewrite values_col_of, length_col_of, length_app. simpl.
  rewrite decide_True by lia. rewrite map_app.
  rewrite lookup_app_r; rewrite length_map; [|lia].
  by replace (length rs + 2 - 2 - length rs)%nat with 0%nat by lia.
Qed.

(** ** Arithmetic facts *)





(** ** The shape and the accuracy of [".2f"] *)









Lemma getitem_Ok σ l df name :
  σ !! l = Some df → LStr name ∈ columns df →
  getitem l name σ = (Ok (col_of (LStr name) (rows df)), σ).
Proof. intros H Hc. by rewrite (getitem_run _ _ _ _ H), column_Ok. Qed.

Lemma getitem_KeyError σ l df name :
  σ !! l = Some df → LStr name ∉ columns df →
  getitem l name σ = (Raise (KeyError (LStr name)), σ).
Proof. intros H Hc. by rewrite (getitem_run _ _ _ _ H), column_KeyError. Qed.


(** ** The metrics stage *)

(** What the two calculations return on a frame whose last two closes
    are [b] (second to last) and [a] (last). *)
Lemma metrics_on_two σ l df rs r2 r1 a b :
  σ !! l = Some df → LStr "Close" ∈ columns df →
  rows df = rs ++ [r2; r1] →
  cell (LStr "Close") r2 = VNum b → cell (LStr "Close") r1 = VNum a →
  get_change l σ = (Ok (VNum (num_sub a b)), σ)
  ∧ get_change_percent l σ
    = (Ok (VNum (num_mul (num_div (num_sub a b) b) (of_Z 100))), σ).
Proof.
  intros Hl Hc Hrows Hb Ha. unfold get_change, get_change_percent.
  rewrite !(bind_run _ _ _ _ _ (getitem_Ok _ _ _ _ Hl Hc)).
  rewrite length_col_of, Hrows, length_app. simpl.
  split; (rewrite decide_True by lia); unfold bind, lift;
    by rewrite (iloc_2_col_of _ rs r2 r1), (iloc_1_col_of' _ rs r2 r1), Ha, Hb.
Qed.

Lemma metrics_on_short σ l df :
  σ !! l = Some df → LStr "Close" ∈ columns df →
  (length (rows df) < 2)%nat →
  get_change l σ = (Ok (VNum (of_Z 0)), σ)
  ∧ get_change_percent l σ = (Ok (VNum (of_Z 0)), σ).
Proof.
  intros Hl Hc Hlen. unfold get_change, get_change_percent.
  rewrite !(bind_run _ _ _ _ _ (getitem_Ok _ _ _ _ Hl Hc)).
  rewrite length_col_of. split; by rewrite decide_False by lia.
Qed.







(** ** The latest-price display *)

Lemma price_on_empty σ l df :
  σ !! l = Some df → LStr "Close" ∈ columns df → rows df = [] →
  price l σ = (Ok "N/A", σ).
Proof.
  intros Hl Hc Hrows. unfold price.
  by rewrite (bind_run _ _ _ _ _ (getitem_Ok _ _ _ _ Hl Hc)), Hrows.
Qed.

Lemma price_on_number σ l df rs r x :
  σ !! l = Some df → LStr "Close" ∈ columns df →
  rows df = rs ++ [r] → cell (LStr "Close") r = VNum x →
  price l σ = (Ok (format_2f x), σ).
Proof.
  intros Hl Hc Hrows Hx. unfold price.
  rewrite (bind_run _ _ _ _ _ (getitem_Ok _ _ _ _ Hl Hc)), Hrows.
  rewrite bool_decide_eq_false_2.
  - unfold bind, lift. by rewrite iloc_1_col_of, Hx.
  - unfold col_of. rewrite map_app. by destruct (map _ rs).
Qed.



(** ** The filter stage: masks and selections *)

Lemma select_map {A} (f : A → bool) (l : list A) :
  select (map f l) l = List.filter f l.
Proof. induction l as [|x l IH]; simpl; [done|]. rewrite IH. by destruct (f x). Qed.

Lemma mask_and_map {A} (f g : A → bool) (l : list A) :
  mask_and (map f l) (map g l) = map (λ x, f x && g x) l.
Proof. unfold mask_and. induction l as [|x l IH]; simpl; [done|]. by rewrite IH. Qed.

Lemma filter_filter_andb {A} (f g : A → bool) (l : list A) :
  List.filter g (List.filter f l) = List.filter (λ x, f x && g x) l.
Proof.
  induction l as [|x l IH]; simpl; [done|].
  destruct (f x); simpl; [|done]. destruct (g x); by rewrite IH.
Qed.

Lemma eq_str_col_of tk rs :
  eq_str (col_of (LStr "Ticker") rs) tk = map (ticker_is tk) rs.
Proof. unfold eq_str. rewrite values_col_of, map_map. done. Qed.

Lemma result_mapM_Ok {A B C} (f : B → result C) (h : A → B) (g : A → C)
    (l : list A) :
  Forall (λ x, f (h x) = Ok (g x)) l → result_mapM f (map h l) = Ok (map g l).
Proof. induction 1 as [|x l Hx _ IH]; simpl; [done|]. by rewrite Hx, IH. Qed.

Lemma as_datetime_row r :
  is_datetime (cell (LStr "Date") r) →
  as_datetime (cell (LStr "Date") r) = Ok (row_time r).
Proof. unfold row_time. by destruct (cell _ r). Qed.

Lemma cmp_time_col_of test rs t :
  Forall (λ r, is_datetime (cell (LStr "Date") r)) rs →
  cmp_time test (col_of (LStr "Date") rs) t
  = Ok (map (λ r, match row_time r with Some u => test u t | None => false end) rs).
Proof.
  intros Hd. unfold cmp_time. rewrite values_col_of.
  induction Hd as [|r rs Hr _ IH]; simpl; [done|].
  by rewrite (as_datetime_row r Hr), IH.
Qed.

Lemma in_range_masks s e rs :
  mask_and
    (map (λ r, match row_time r with Some u => u >=? s | None => false end) rs)
    (map (λ r, match row_time r with Some u => u <=? e | None => false end) rs)
  = map (in_range s e) rs.
Proof.
  rewrite mask_and_map. apply map_ext. intros r. unfold in_range.
  destruct (row_time r); [|done]. by rewrite Z.geb_leb.
Qed.

Lemma selected_spec cols tk s e r :
  selected cols tk s e r = true ↔
  (LStr "Ticker" ∈ cols → cell (LStr "Ticker") r = VStr tk)
  ∧ ∃ t, cell (LStr "Date") r = VTime t ∧ s ≤ t ≤ e.
Proof.
  unfold selected, in_range, row_time, ticker_is.
  rewrite andb_true_iff.
  assert (∀ P Q P' Q' : Prop, (P ↔ P') → (Q ↔ Q') → (P ∧ Q ↔ P' ∧ Q')) as Hand
    by tauto.
  apply Hand; clear Hand.
  - case_bool_decide as Ht.
    + rewrite bool_decide_eq_true. tauto.
    + tauto.
  - destruct (cell (LStr "Date") r) as [x|x|t|]; split;
      try (intros (t' & ? & ?)); try done.
    + intros [? ?]%andb_true_iff. exists t. split; [done|lia].
    + simplify_eq. apply andb_true_iff. lia.
Qed.

Lemma selected_has_time cols tk s e r :
  selected cols tk s e r = true → is_Some (row_time r).
Proof.
  intros (_ & t & Ht & _)%selected_spec. unfold row_time. rewrite Ht. by eexists.
Qed.

(** ** The filter stage: sorting *)

Lemma omap_fmap_compose {A B C} (g : A → B) (f : B → option C) (l : list A) :
  omap f (g <$> l) = omap (f ∘ g) l.
Proof. induction l as [|x l IH]; csimpl; [done|]. by rewrite IH. Qed.

Lemma omap_omap {A B C} (f : A → option B) (g : B → option C) (l : list A) :
  omap g (omap f l) = omap (λ x, f x ≫= g) l.
Proof.
  induction l as [|x l IH]; csimpl; [done|].
  destruct (f x); csimpl; by rewrite IH.
Qed.

Lemma omap_pointwise {A B} (f g : A → option B) (l : list A) :
  Forall (λ x, f x = g x) l → omap f l = omap g l.
Proof. induction 1 as [|x l Hx _ IH]; csimpl; [done|]. by rewrite Hx, IH. Qed.

Lemma omap_Some_id {A} (f : A → option A) (l : list A) :
  Forall (λ x, f x = Some x) l → omap f l = l.
Proof. induction 1 as [|x l Hx _ IH]; csimpl; [done|]. by rewrite Hx, IH. Qed.

Lemma omap_lookup_seq {A} (l : list A) :
  omap (λ i, l !! i) (seq 0 (length l)) = l.
Proof.
  induction l as [|x l IH]; [done|].
  simpl length. rewrite <-cons_seq, <-fmap_S_seq. csimpl.
  rewrite omap_fmap_compose. by rewrite <-IH at 2.
Qed.

Lemma filter_all {A} (f : A → bool) (l : list A) :
  Forall (λ x, f x = true) l → List.filter f l = l.
Proof. induction 1 as [|x l Hx _ IH]; simpl; [done|]. by rewrite Hx, IH. Qed.

Lemma filter_none {A} (f : A → bool) (l : list A) :
  Forall (λ x, f x = true) l → List.filter (λ x, negb (f x)) l = [].
Proof. induction 1 as [|x l Hx _ IH]; simpl; [done|]. by rewrite Hx. Qed.

Lemma take_rows_perm idx rs :
  idx ≡ₚ seq 0 (length rs) → take_rows idx rs ≡ₚ rs.
Proof. intros Hp. unfold take_rows. by rewrite Hp, omap_lookup_seq. Qed.

Lemma argsort_in_range `{ArgSort} ks :
  Forall (λ j, (j < length ks)%nat) (argsort ks).
Proof.
  rewrite argsort_perm. apply Forall_forall. intros j Hj.
  apply elem_of_seq in Hj. lia.
Qed.

(** When no key is missing, [nargsort] is [argsort] of the keys. *)
Lemma nargsort_all_times `{ArgSort} (ts : list Z) :
  nargsort (Some <$> ts) = argsort ts.
Proof.
  unfold nargsort. rewrite length_fmap.
  assert (Forall (λ i, bool_decide (is_Some (mjoin ((Some <$> ts) !! i))) = true)
            (seq 0 (length ts))) as Hall.
  { apply Forall_forall. intros i Hi. apply elem_of_seq in Hi.
    apply bool_decide_eq_true. rewrite list_lookup_fmap.
    destruct (lookup_lt_is_Some_2 ts i) as [t ->]; [lia|]. by eexists. }
  rewrite (filter_all _ _ Hall), (filter_none _ _ Hall), app_nil_r.
  rewrite omap_fmap_compose, (omap_Some_id (id ∘ Some)) by by apply Forall_true.
  apply omap_Some_id. eapply Forall_impl; [apply argsort_in_range|].
  intros j Hj. by apply lookup_seq_lt.
Qed.

Lemma row_times_all rs :
  Forall (λ r, is_Some (row_time r)) rs →
  map row_time rs = Some <$> omap row_time rs
  ∧ length (omap row_time rs) = length rs.
Proof.
  induction 1 as [|r rs [t Ht] _ [IH1 IH2]]; csimpl; [done|].
  rewrite Ht. csimpl. by rewrite IH1, IH2.
Qed.

Lemma sorted_by_date_eq `{ArgSort} rs :
  Forall (λ r, is_Some (row_time r)) rs →
  sorted_by_date rs = take_rows (argsort (omap row_time rs)) rs.
Proof.
  intros Hall. unfold sorted_by_date.
  destruct (row_times_all rs Hall) as [-> _]. by rewrite nargsort_all_times.
Qed.

Lemma sorted_by_date_perm `{ArgSort} rs :
  Forall (λ r, is_Some (row_time r)) rs → sorted_by_date rs ≡ₚ rs.
Proof.
  intros Hall. rewrite sorted_by_date_eq by done.
  apply take_rows_perm. rewrite argsort_perm.
  by destruct (row_times_all rs Hall) as [_ ->].
Qed.

Lemma lookup_omap_row_time rs i :
  Forall (λ r, is_Some (row_time r)) rs →
  omap row_time rs !! i = rs !! i ≫= row_time.
Proof.
  intros Hall. revert i.
  induction Hall as [|r rs [t Ht] _ IH]; intros i; csimpl; [done|].
  rewrite Ht. destruct i; csimpl; [done|]. apply IH.
Qed.

Lemma sorted_by_date_sorted `{ArgSort} rs :
  Forall (λ r, is_Some (row_time r)) rs →
  Sorted Z.le (omap row_time (sorted_by_date rs)).
Proof.
  intros Hall. rewrite sorted_by_date_eq by done. unfold take_rows.
  rewrite omap_omap.
  rewrite (omap_pointwise _ (λ i, omap row_time rs !! i)).
  - apply argsort_sorted.
  - apply Forall_true. intros i. by rewrite lookup_omap_row_time.
Qed.

(** ** Running the pandas operations that allocate *)

Lemma insert_fresh_subseteq (σ : store) df : σ ⊆ <[fresh_loc σ := df]> σ.
Proof. apply insert_subseteq, fresh_loc_None. Qed.

Lemma df_copy_run σ l df :
  σ !! l = Some df →
  df_copy l σ = (Ok (fresh_loc σ), <[fresh_loc σ := df]> σ).
Proof. intros H. unfold df_copy. by rewrite (bind_run _ _ _ _ _ (deref_run _ _ _ H)). Qed.

Lemma getitem_mask_run σ l df mask :
  σ !! l = Some df → length mask = length (rows df) →
  getitem_mask l mask σ
  = (Ok (fresh_loc σ),
     <[fresh_loc σ := mkFrame (columns df) (select mask (rows df))]> σ).
Proof.
  intros H Hlen. unfold getitem_mask.
  rewrite (bind_run _ _ _ _ _ (deref_run _ _ _ H)). by rewrite decide_True.
Qed.

Lemma sort_values_run `{ArgSort} σ l df :
  σ !! l = Some df → date_parsed df →
  sort_values l "Date" σ
  = (Ok (fresh_loc σ),
     <[fresh_loc σ := mkFrame (columns df) (sorted_by_date (rows df))]> σ).
Proof.
  intros Hl [Hc Hd]. unfold sort_values.
  rewrite (bind_run _ _ _ _ _ (deref_run _ _ _ Hl)).
  rewrite column_Ok by done. unfold bind at 1, lift at 1.
  rewrite values_col_of.
  rewrite (result_mapM_Ok _ _ row_time).
  - done.
  - eapply Forall_impl; [exact Hd|]. apply as_datetime_row.
Qed.

Lemma reset_index_run σ l df drop_old :
  σ !! l = Some df →
  reset_index drop_old l σ
  = (Ok (fresh_loc σ), <[fresh_loc σ := with_range_index drop_old df]> σ).
Proof. intros H. unfold reset_index. by rewrite (bind_run _ _ _ _ _ (deref_run _ _ _ H)). Qed.

Lemma Forall_List_filter {A} (P : A → Prop) (f : A → bool) (l : list A) :
  Forall P l → Forall P (List.filter f l).
Proof.
  induction 1 as [|x l Hx _ IH]; simpl; [done|].
  destruct (f x); [by constructor|done].
Qed.

Lemma Forall_filter_true {A} (f : A → bool) (l : list A) :
  Forall (λ x, f x = true) (List.filter f l).
Proof.
  induction l as [|x l IH]; simpl; [done|].
  destruct (f x) eqn:Hx; [by constructor|done].
Qed.

Lemma date_parsed_filter df f :
  date_parsed df → date_parsed (mkFrame (columns df) (List.filter f (rows df))).
Proof. intros [Hc Hd]. split; [done|]. by apply Forall_List_filter. Qed.

(** Lines 71-75: the date mask, [loc] and [sort_values], run on the frame
    at [l]. *)
Lemma date_window_run `{ArgSort} σ l df s e :
  σ !! l = Some df → date_parsed df →
  ∃ l' σ',
    (let! d1 := getitem l "Date" in
     let! m1 := lift (cmp_time Z.geb d1 s) in
     let! d2 := getitem l "Date" in
     let! m2 := lift (cmp_time Z.leb d2 e) in
     let! df' := loc_mask l (mask_and m1 m2) in
     sort_values df' "Date") σ = (Ok l', σ')
    ∧ σ' !! l'
      = Some (mkFrame (columns df)
                (sorted_by_date (List.filter (in_range s e) (rows df))))
    ∧ σ ⊆ σ'.
Proof.
  intros Hl Hp. pose proof Hp as [Hc Hd].
  rewrite !(bind_run _ _ _ _ _ (getitem_Ok _ _ _ _ Hl Hc)).
  unfold bind at 1, lift at 1. rewrite (cmp_time_col_of _ _ _ Hd).
  rewrite (bind_run _ _ _ _ _ (getitem_Ok _ _ _ _ Hl Hc)).
  unfold bind at 1, lift at 1. rewrite (cmp_time_col_of _ _ _ Hd).
  rewrite in_range_masks. unfold loc_mask.
  rewrite (bind_run _ _ _ _ _ (getitem_mask_run _ _ _ _ Hl (length_map _ _))).
  rewrite select_map.
  set (σ1 := <[fresh_loc σ := _]> σ).
  assert (σ1 !! fresh_loc σ
          = Some (mkFrame (columns df) (List.filter (in_range s e) (rows df))))
    as H1 by apply lookup_insert_eq.
  rewrite (sort_values_run _ _ _ H1 (date_parsed_filter _ _ Hp)).
  eexists _, _. split; [done|]. split; [by rewrite lookup_insert_eq|].
  etrans; [apply (insert_fresh_subseteq σ)|apply (insert_fresh_subseteq σ1)].
Qed.

(** [get_data] returns a fresh frame, [filtered], and changes no frame
    that was in the store. *)
Lemma get_data_run `{ArgSort} σ data_all D tk s e :
  σ !! data_all = Some D → date_parsed D →
  ∃ l σ',
    get_data data_all tk (s, e) σ = (Ok l, σ')
    ∧ σ' !! l = Some (filtered D tk s e)
    ∧ σ ⊆ σ'.
Proof.
  intros Hl Hp. unfold get_data.
  rewrite (bind_run _ _ _ _ _ (df_copy_run _ _ _ Hl)).
  set (σ1 := <[fresh_loc σ := D]> σ).
  assert (σ1 !! fresh_loc σ = Some D) as H1 by apply lookup_insert_eq.
  assert (σ ⊆ σ1) as Hsub1 by apply insert_fresh_subseteq.
  rewrite (bind_run _ _ _ _ _ (has_column_run _ _ _ _ H1)).
  unfold filtered, retained, selected.
  case_bool_decide as Ht.
  - rewrite (bind_run (let! t := getitem _ "Ticker" in _) _ σ1 (fresh_loc σ1)
               (<[fresh_loc σ1 :=
                    mkFrame (columns D) (List.filter (ticker_is tk) (rows D))]> σ1)).
    2:{ rewrite (bind_run _ _ _ _ _ (getitem_Ok _ _ _ _ H1 Ht)).
        rewrite eq_str_col_of.
        rewrite (getitem_mask_run _ _ _ _ H1 (length_map _ _)).
        by rewrite select_map. }
    set (σ2 := <[fresh_loc σ1 := _]> σ1).
    assert (σ2 !! fresh_loc σ1
            = Some (mkFrame (columns D) (List.filter (ticker_is tk) (rows D))))
      as H2 by apply lookup_insert_eq.
    destruct (date_window_run σ2 _ _ s e H2 (date_parsed_filter _ _ Hp))
      as (l & σ' & Hrun & Hlook & Hsub).
    exists l, σ'. simpl in *. split; [exact Hrun|]. split.
    + by rewrite Hlook, filter_filter_andb.
    + etrans; [exact Hsub1|]. etrans; [apply (insert_fresh_subseteq σ1)|exact Hsub].
  - rewrite (bind_run (ret _) _ σ1 (fresh_loc σ) σ1 eq_refl).
    destruct (date_window_run σ1 _ _ s e H1 Hp) as (l & σ' & Hrun & Hlook & Hsub).
    exists l, σ'. simpl in *. split; [exact Hrun|]. split; [exact Hlook|].
    by etrans.
Qed.

Lemma retained_have_time df tk s e :
  Forall (λ r, is_Some (row_time r)) (retained df tk s e).
Proof.
  eapply Forall_impl; [apply Forall_filter_true|].
  intros r. apply selected_has_time.
Qed.

Lemma omap_row_time_cells rs :
  Forall (λ r, is_Some (row_time r)) rs →
  map (cell (LStr "Date")) rs = map VTime (omap row_time rs).
Proof.
  induction 1 as [|r rs [t Ht] _ IH]; csimpl; [done|].
  rewrite Ht. csimpl. rewrite <-IH. f_equal.
  unfold row_time in Ht. by destruct (cell _ r); simplify_eq.
Qed.

Section Filter.

Context `{!ArgSort}.

(** C1: for every dataset (with its Date column parsed, as line 14 leaves
    it), instrument and date range, get_data returns a frame with the
    dataset's columns whose rows are exactly the rows of the dataset that
    match the instrument (when there is a Ticker column; all rows
    otherwise) and whose timestamp lies in the closed range, each as often
    as the dataset has it, in non-decreasing order of timestamp. *)
Theorem get_data_filters_and_sorts (σ : store) (data_all : loc)
    (D : DataFrame) (tk : string) (s e : Z) :
  σ !! data_all = Some D →
  date_parsed D →
  ∃ l df σ',
    get_data data_all tk (s, e) σ = (Ok l, σ')
    ∧ σ' !! l = Some df
    ∧ columns df = columns D
    ∧ rows df ≡ₚ List.filter (selected (columns D) tk s e) (rows D)
    ∧ (∀ r, r ∈ rows df ↔
            r ∈ rows D
            ∧ (LStr "Ticker" ∈ columns D → cell (LStr "Ticker") r = VStr tk)
            ∧ ∃ t, cell (LStr "Date") r = VTime t ∧ s ≤ t ≤ e)
    ∧ ∃ ts, map (cell (LStr "Date")) (rows df) = map VTime ts
            ∧ Sorted Z.le ts.
Proof.
  intros Hl Hp.
  destruct (get_data_run σ data_all D tk s e Hl Hp) as (l & σ' & Hrun & Hlook & _).
  exists l, (filtered D tk s e), σ'.
  assert (rows (filtered D tk s e) ≡ₚ retained D tk s e) as Hperm
    by apply sorted_by_date_perm, retained_have_time.
  split; [done|]. split; [done|]. split; [done|]. split; [done|]. split.
  - intros r. rewrite Hperm. unfold retained.
    rewrite list_elem_of_In, filter_In, <-list_elem_of_In, selected_spec. done.
  - exists (omap row_time (rows (filtered D tk s e))). split.
    + apply omap_row_time_cells. rewrite Hperm. apply retained_have_time.
    + apply sorted_by_date_sorted, retained_have_time.
Qed.

End Filter.

(** ** Ties: what a sorting algorithm may and may not change *)











Lemma filter_perm {A} (f : A → bool) (l k : list A) :
  l ≡ₚ k → List.filter f l ≡ₚ List.filter f k.
Proof.
  induction 1 as [|x l k _ IH|x y l|l k m _ IH1 _ IH2]; simpl.
  - done.
  - destruct (f x); by rewrite IH.
  - destruct (f x), (f y); try done. apply Permutation_swap.
  - by etrans.
Qed.

Lemma filtered_rows_perm `{ArgSort} D tk s e :
  rows (filtered D tk s e) ≡ₚ retained D tk s e.
Proof. apply sorted_by_date_perm, retained_have_time. Qed.


Lemma filtered_rows_have_time `{ArgSort} D tk s e :
  Forall (λ r, is_Some (row_time r)) (rows (filtered D tk s e)).
Proof. rewrite filtered_rows_perm. apply retained_have_time. Qed.



Global Instance date_parsed_dec df : Decision (date_parsed df).
Proof. unfold date_parsed. apply _. Defined.

Lemma get_data_filters_and_sorts_witness :
  ∃ l df σ',
    @get_data stable_sorter 0%nat "DMA1" (19723, 19725) {[0%nat := sample_dataset]}
      = (Ok l, σ')
    ∧ σ' !! l = Some df
    ∧ columns df = columns sample_dataset
    ∧ rows df ≡ₚ List.filter
                   (selected (columns sample_dataset) "DMA1" 19723 19725)
                   (rows sample_dataset)
    ∧ (∀ r, r ∈ rows df ↔
            r ∈ rows sample_dataset
            ∧ (LStr "Ticker" ∈ columns sample_dataset
               → cell (LStr "Ticker") r = VStr "DMA1")
            ∧ ∃ t, cell (LStr "Date") r = VTime t ∧ 19723 ≤ t ≤ 19725)
    ∧ ∃ ts, map (cell (LStr "Date")) (rows df) = map VTime ts
            ∧ Sorted Z.le ts.
Proof.
  refine (@get_data_filters_and_sorts stable_sorter
            {[0%nat := sample_dataset]} 0%nat sample_dataset "DMA1"
            19723 19725 _ _).
  - reflexivity.
  - apply (bool_decide_unpack _). vm_compute. exact I.
Defined.

Section Ties.

Context `{!ArgSort}.



End Ties.





(** ** The rules of [keeps] *)

Lemma keeps_weaken {A} σ0 (m : M A) (Q R : A → Prop) :
  keeps σ0 m Q → (∀ a, Q a → R a) → keeps σ0 m R.
Proof. intros Hm HQR σ Hσ. destruct (Hm σ Hσ) as [? ?]. split; auto. Qed.

Lemma keeps_bind {A B} σ0 (m : M A) (k : A → M B) (Q : A → Prop) (R : B → Prop) :
  keeps σ0 m Q → (∀ a, Q a → keeps σ0 (k a) R) → keeps σ0 (bind m k) R.
Proof.
  intros Hm Hk σ Hσ. destruct (Hm σ Hσ) as [Hsub Hpost]. unfold bind.
  destruct (m σ) as [[a|e] σ1]; simpl in *.
  - by apply Hk; [apply Hpost|].
  - split; [done|]. intros a. discriminate.
Qed.

Lemma keeps_ret {A} σ0 (a : A) : keeps σ0 (ret a) (λ _, True).
Proof. intros σ Hσ. by split. Qed.

Lemma keeps_raise {A} σ0 e : keeps σ0 (@raise A e) (λ _, True).
Proof. intros σ Hσ. by split. Qed.

Lemma keeps_lift {A} σ0 (r : result A) : keeps σ0 (lift r) (λ _, True).
Proof. intros σ Hσ. by split. Qed.

Lemma keeps_deref σ0 l : keeps σ0 (deref l) (λ _, True).
Proof. intros σ Hσ. unfold deref. by destruct (σ !! l). Qed.

Lemma keeps_alloc σ0 df : keeps σ0 (alloc df) (outside σ0).
Proof.
  intros σ Hσ. unfold alloc; simpl.
  assert (σ0 !! fresh_loc σ = None) as Hout
    by (eapply lookup_weaken_None; [apply fresh_loc_None|done]).
  split.
  - by apply insert_subseteq_r.
  - by intros a [= <-].
Qed.

Lemma keeps_update σ0 l df : outside σ0 l → keeps σ0 (update l df) (λ _, True).
Proof. intros Hl σ Hσ. split; [|done]. by apply insert_subseteq_r. Qed.

Lemma keeps_try {A} σ0 (m : M A) Q : keeps σ0 m Q → keeps σ0 (try m) (λ _, True).
Proof.
  intros Hm σ Hσ. destruct (Hm σ Hσ) as [Hsub _]. unfold try.
  by destruct (m σ).
Qed.

Create HintDb keeps.

#[local] Hint Resolve keeps_ret keeps_raise keeps_lift keeps_deref keeps_alloc
  keeps_update : keeps.

(** One step of a run: a bind whose first part is a known operation, a
    bind whose first part is itself compound, or a branch. *)
Ltac keeps_leaf :=
  first [ solve [eauto with keeps]
        | eapply keeps_weaken; [solve [eauto with keeps]|done] ].

Ltac keeps_go :=
  lazymatch goal with
  | |- keeps _ (bind _ _) _ =>
      first [ eapply keeps_bind; [keeps_leaf|intros ? ?; keeps_go]
            | eapply (keeps_bind _ _ _ (λ _, True));
              [keeps_go|intros ? _; keeps_go] ]
  | |- keeps _ (if ?b then _ else _) _ => destruct b; keeps_go
  | |- keeps _ (match ?d with _ => _ end) _ => destruct d; keeps_go
  | |- _ => keeps_leaf
  end.

Lemma keeps_df_copy σ0 l : keeps σ0 (df_copy l) (outside σ0).
Proof. unfold df_copy. keeps_go. Qed.

Lemma keeps_has_column σ0 l name : keeps σ0 (has_column l name) (λ _, True).
Proof. unfold has_column. keeps_go. Qed.

Lemma keeps_getitem σ0 l name : keeps σ0 (getitem l name) (λ _, True).
Proof. unfold getitem. keeps_go. Qed.

Lemma keeps_len σ0 l : keeps σ0 (len l) (λ _, True).
Proof. unfold len. keeps_go. Qed.

Lemma keeps_getitem_mask σ0 l mask : keeps σ0 (getitem_mask l mask) (λ _, True).
Proof. unfold getitem_mask. keeps_go. Qed.

Lemma keeps_loc_mask σ0 l mask : keeps σ0 (loc_mask l mask) (λ _, True).
Proof. apply keeps_getitem_mask. Qed.

Lemma keeps_sort_values `{ArgSort} σ0 l by_ : keeps σ0 (sort_values l by_) (outside σ0).
Proof. unfold sort_values. keeps_go. Qed.

Lemma keeps_reset_index σ0 drop_old l :
  keeps σ0 (reset_index drop_old l) (outside σ0).
Proof. unfold reset_index. keeps_go. Qed.

Lemma keeps_iloc_last σ0 l : keeps σ0 (iloc_last l) (outside σ0).
Proof. unfold iloc_last. keeps_go. Qed.

Lemma keeps_df_T σ0 l : keeps σ0 (df_T l) (outside σ0).
Proof. unfold df_T. keeps_go. Qed.

Lemma keeps_setitem σ0 l name s :
  outside σ0 l → keeps σ0 (setitem l name s) (λ _, True).
Proof. intros Hl. unfold setitem. keeps_go. Qed.

Lemma keeps_set_columns σ0 l names :
  outside σ0 l → keeps σ0 (set_columns l names) (λ _, True).
Proof. intros Hl. unfold set_columns. keeps_go. Qed.

#[local] Hint Resolve keeps_df_copy keeps_has_column keeps_getitem keeps_len
  keeps_getitem_mask keeps_loc_mask keeps_sort_values keeps_reset_index
  keeps_iloc_last keeps_df_T keeps_setitem keeps_set_columns : keeps.

Section Frame.

Context `{!ArgSort}.
Variable repr_finite : Qc → string.

Lemma keeps_get_data σ0 data_all tk dates :
  keeps σ0 (get_data data_all tk dates) (λ _, True).
Proof. unfold get_data. keeps_go. Qed.

Lemma keeps_get_change σ0 df : keeps σ0 (get_change df) (λ _, True).
Proof. unfold get_change. keeps_go. Qed.

Lemma keeps_get_change_percent σ0 df :
  keeps σ0 (get_change_percent df) (λ _, True).
Proof. unfold get_change_percent. keeps_go. Qed.

Hint Resolve keeps_get_data keeps_get_change keeps_get_change_percent : keeps.

Lemma keeps_price σ0 df : keeps σ0 (price df) (λ _, True).
Proof. unfold price. keeps_go. Qed.

Lemma keeps_change σ0 df : keeps σ0 (change df) (λ _, True).
Proof. unfold change. keeps_go. Qed.

Lemma keeps_change_icon σ0 df : keeps σ0 (change_icon df) (λ _, True).
Proof. unfold change_icon. keeps_go. Qed.

Lemma keeps_change_percent σ0 df : keeps σ0 (change_percent df) (λ _, True).
Proof. unfold change_percent. keeps_go. Qed.

(** The column assignment of line 130 goes through the reference that
    [reset_index] has just returned, which is outside [σ0]. *)
Lemma keeps_price_history σ0 df tk : keeps σ0 (price_history df tk) (λ _, True).
Proof. unfold price_history. keeps_go. Qed.

(** Lines 154-155 assign to the frame [reset_index] returned. *)
Lemma keeps_latest_data σ0 df : keeps σ0 (latest_data repr_finite df) (λ _, True).
Proof. unfold latest_data. keeps_go. Qed.

Hint Resolve keeps_price keeps_change keeps_change_icon keeps_change_percent
  keeps_price_history keeps_latest_data keeps_try : keeps.

Lemma keeps_flush σ0 data_all tk dates :
  keeps σ0 (flush repr_finite data_all tk dates) (λ _, True).
Proof. unfold flush, on_data. keeps_go. Qed.

(** C9: a reactive flush, whatever the selection and whether or not its
    stages raise, leaves the frame [data_all] refers to as it was (same
    columns, same rows in the same order), and every other frame that
    existed before it; so do the chart stage, with its assignment of the
    SMA column, and the snapshot stage, run on any frame. *)
Theorem pipeline_leaves_dataset_unchanged (σ : store) (data_all : loc)
    (D : DataFrame) (tk : string) (dates : Z * Z) :
  σ !! data_all = Some D →
  (flush repr_finite data_all tk dates σ).2 !! data_all = Some D
  ∧ σ ⊆ (flush repr_finite data_all tk dates σ).2
  ∧ ∀ l, σ ⊆ (price_history l tk σ).2
         ∧ σ ⊆ (latest_data repr_finite l σ).2.
Proof.
  intros Hl.
  assert (σ ⊆ (flush repr_finite data_all tk dates σ).2) as Hsub
    by by apply (keeps_flush σ data_all tk dates σ).
  split; [by eapply lookup_weaken|]. split; [done|].
  intros l. split.
  - by apply (keeps_price_history σ l tk σ).
  - by apply (keeps_latest_data σ l σ).
Qed.

End Frame.

Lemma pipeline_leaves_dataset_unchanged_witness :
  (@flush stable_sorter fixed2 0%nat "DMA1" (19723, 19725)
     {[0%nat := sample_dataset]}).2 !! 0%nat = Some sample_dataset
  ∧ {[0%nat := sample_dataset]}
    ⊆ (@flush stable_sorter fixed2 0%nat "DMA1" (19723, 19725)
         {[0%nat := sample_dataset]}).2
  ∧ ∀ l, {[0%nat := sample_dataset]}
         ⊆ (price_history l "DMA1" {[0%nat := sample_dataset]}).2
         ∧ {[0%nat := sample_dataset]}
           ⊆ (latest_data fixed2 l {[0%nat := sample_dataset]}).2.
Proof.
  refine (@pipeline_leaves_dataset_unchanged stable_sorter fixed2
            {[0%nat := sample_dataset]} 0%nat sample_dataset "DMA1"
            (19723, 19725) _).
  reflexivity.
Defined.

(** ** The chart stage *)

Lemma imap_ext_map {A B C} (f : nat → A → C) (g : B → C) (h : nat → A → B)
    (l : list A) :
  (∀ i x, g (h i x) = f i x) → map g (imap h l) = imap f l.
Proof.
  revert f h. induction l as [|x l IH]; intros f h Hfg; csimpl; [done|].
  rewrite Hfg. f_equal. apply IH. intros i y. apply Hfg.
Qed.

Lemma map_imap_const {A B C} (g : B → C) (h : nat → A → B) (k : A → C)
    (l : list A) :
  (∀ i x, g (h i x) = k x) → map g (imap h l) = map k l.
Proof.
  revert h. induction l as [|x l IH]; intros h Hk; csimpl; [done|].
  rewrite Hk. f_equal. apply IH. intros i y. apply Hk.
Qed.

Lemma reindexed_column c df :
  values (col_of c (rows (with_range_index true df))) = map (cell c) (rows df).
Proof. rewrite values_col_of. simpl. by apply map_imap_const. Qed.

Lemma length_rows_reindexed b df :
  length (rows (with_range_index b df)) = length (rows df).
Proof. destruct b; simpl; by rewrite length_imap. Qed.

Lemma has_ohlc_elem df name :
  has_ohlc df → LStr name ∈ ohlc_columns → LStr name ∈ columns df.
Proof. intros Hf Hin. by apply (proj1 (Forall_forall _ _) Hf). Qed.

Lemma price_history_short σ l df tk :
  σ !! l = Some df → has_ohlc df → (length (rows df) < 7)%nat →
  price_history l tk σ
  = (Ok (mkFigure [candle_of (rows df) tk]),
     <[fresh_loc σ := with_range_index true df]> σ).
Proof.
  intros Hl Hc Hlen. unfold price_history.
  rewrite (bind_run _ _ _ _ _ (reset_index_run _ _ _ true Hl)).
  set (σ1 := <[fresh_loc σ := _]> σ).
  assert (σ1 !! fresh_loc σ = Some (with_range_index true df)) as H1
    by apply lookup_insert_eq.
  assert (∀ name, bool_decide (LStr name ∈ ohlc_columns) = true →
            LStr name ∈ columns (with_range_index true df)) as Hcol
    by (intros name Hn%bool_decide_eq_true; by apply has_ohlc_elem).
  rewrite (bind_run _ _ _ _ _ (getitem_Ok _ _ _ _ H1 (Hcol "Date" eq_refl))).
  rewrite (bind_run _ _ _ _ _ (getitem_Ok _ _ _ _ H1 (Hcol "Open" eq_refl))).
  rewrite (bind_run _ _ _ _ _ (getitem_Ok _ _ _ _ H1 (Hcol "High" eq_refl))).
  rewrite (bind_run _ _ _ _ _ (getitem_Ok _ _ _ _ H1 (Hcol "Low" eq_refl))).
  rewrite (bind_run _ _ _ _ _ (getitem_Ok _ _ _ _ H1 (Hcol "Close" eq_refl))).
  rewrite (bind_run _ _ _ _ _ (len_run _ _ _ H1)).
  rewrite !reindexed_column, length_rows_reindexed.
  by rewrite decide_False by lia.
Qed.

Lemma setitem_run σ l df name s :
  σ !! l = Some df →
  setitem l name s σ = (Ok tt, <[l := set_column (LStr name) s df]> σ).
Proof. intros H. unfold setitem. by rewrite (bind_run _ _ _ _ _ (deref_run _ _ _ H)). Qed.

(** Alignment on the index: the value a Series holds at position [i] is
    the one found for its label when no earlier entry has that label. *)
Lemma series_get_lookup (s : list (label * value)) i k v :
  s !! i = Some (k, v) →
  (∀ j p, (j < i)%nat → s !! j = Some p → p.1 ≠ k) →
  series_get k s = v.
Proof.
  revert i. induction s as [|[k' v'] s IH]; intros i Hi Hbefore; [done|].
  simpl. destruct i as [|i]; simplify_eq/=.
  - by rewrite decide_True.
  - rewrite decide_False.
    + apply (IH i); [done|]. intros j p Hj Hp.
      apply (Hbefore (S j) p); [lia|done].
    + apply (Hbefore 0%nat (k', v')); [lia|done].
Qed.

Lemma cell_set_column_same name v r :
  cell name (mkRow (row_label r) (<[name := v]> (cells r))) = v.
Proof. unfold cell; simpl. by rewrite lookup_insert_eq. Qed.

Lemma cell_set_column_other name c v r :
  name ≠ c →
  cell c (mkRow (row_label r) (<[name := v]> (cells r))) = cell c r.
Proof. intros Hne. unfold cell; simpl. by rewrite lookup_insert_ne. Qed.

Lemma set_column_has name s df : name ∈ columns (set_column name s df).
Proof.
  unfold set_column; simpl. case_decide; [done|].
  apply elem_of_app. right. by apply list_elem_of_singleton.
Qed.

Lemma set_column_keeps name s df c :
  c ∈ columns df → c ∈ columns (set_column name s df).
Proof.
  intros Hc. unfold set_column; simpl. case_decide; [done|].
  apply elem_of_app. by left.
Qed.

(** The SMA column read back after the assignment of line 130. *)
Lemma sma_column_read (rs : list Row) (wm : nat → number) :
  let rs' := imap (λ i r, mkRow (LInt (Z.of_nat i)) (cells r)) rs in
  let sma := imap (λ i p, (p.1, VNum (wm i))) (col_of (LStr "Close") rs') in
  map (cell (LStr "SMA"))
    (map (λ r, mkRow (row_label r)
                 (<[LStr "SMA" := series_get (row_label r) sma]> (cells r))) rs')
  = imap (λ i _, VNum (wm i)) rs.
Proof.
  intros rs' sma. rewrite map_map.
  rewrite (map_ext _ (λ r, series_get (row_label r) sma))
    by (intros r; apply cell_set_column_same).
  unfold rs'. rewrite (imap_ext_map (λ i _, series_get (LInt (Z.of_nat i)) sma))
    by done.
  apply imap_ext. intros i r Hr.
  assert (∀ j, sma !! j = (λ r, (LInt (Z.of_nat j), VNum (wm j))) <$> rs !! j)
    as Hsma.
  { intros j. unfold sma, col_of, rs'.
    rewrite list_lookup_imap, (list_lookup_fmap _ (imap _ rs)), list_lookup_imap.
    by destruct (rs !! j). }
  apply (series_get_lookup sma i).
  - by rewrite Hsma, Hr.
  - intros j p Hj Hp. rewrite Hsma in Hp.
    destruct (rs !! j); simplify_eq/=. intros [=]. lia.
Qed.

Lemma price_history_long σ l df tk :
  σ !! l = Some df → has_ohlc df → (7 ≤ length (rows df))%nat →
  Forall (λ r, is_int_or_float (cell (LStr "Close") r)) (rows df) →
  ∃ σ',
    price_history l tk σ
    = (Ok (mkFigure [candle_of (rows df) tk;
                     Scatter (map (cell (LStr "Date")) (rows df))
                       (sma_values (rows df)) "SMA (7)"]), σ')
    ∧ σ ⊆ σ'.
Proof.
  intros Hl Hc Hlen Hnum. unfold price_history.
  rewrite (bind_run _ _ _ _ _ (reset_index_run _ _ _ true Hl)).
  set (l' := fresh_loc σ).
  set (σ1 := <[l' := with_range_index true df]> σ).
  assert (σ1 !! l' = Some (with_range_index true df)) as H1
    by apply lookup_insert_eq.
  assert (∀ name, bool_decide (LStr name ∈ ohlc_columns) = true →
            LStr name ∈ columns (with_range_index true df)) as Hcol
    by (intros name Hn%bool_decide_eq_true; by apply has_ohlc_elem).
  rewrite (bind_run _ _ _ _ _ (getitem_Ok _ _ _ _ H1 (Hcol "Date" eq_refl))).
  rewrite (bind_run _ _ _ _ _ (getitem_Ok _ _ _ _ H1 (Hcol "Open" eq_refl))).
  rewrite (bind_run _ _ _ _ _ (getitem_Ok _ _ _ _ H1 (Hcol "High" eq_refl))).
  rewrite (bind_run _ _ _ _ _ (getitem_Ok _ _ _ _ H1 (Hcol "Low" eq_refl))).
  rewrite (bind_run _ _ _ _ _ (getitem_Ok _ _ _ _ H1 (Hcol "Close" eq_refl))).
  rewrite (bind_run _ _ _ _ _ (len_run _ _ _ H1)).
  rewrite !reindexed_column, length_rows_reindexed.
  rewrite decide_True by lia.
  rewrite (bind_run _ _ _ _ _ (getitem_Ok _ _ _ _ H1 (Hcol "Close" eq_refl))).
  unfold rolling_mean. rewrite reindexed_column.
  rewrite (result_mapM_Ok _ _ close_number).
  2:{ eapply Forall_impl; [exact Hnum|]. intros r Hr. unfold close_number.
      simpl in Hr. by destruct (cell (LStr "Close") r). }
  unfold bind at 1, lift at 1, result_bind.
  rewrite (bind_run _ _ _ _ _ (setitem_run _ _ _ _ _ H1)).
  set (sma := imap _ (col_of (LStr "Close") (rows (with_range_index true df)))).
  set (df'' := set_column (LStr "SMA") sma (with_range_index true df)).
  set (σ2 := <[l' := df'']> σ1).
  assert (σ2 !! l' = Some df'') as H2 by apply lookup_insert_eq.
  assert (LStr "Date" ∈ columns df'') as HcD
    by apply set_column_keeps, (Hcol "Date" eq_refl).
  rewrite (bind_run _ _ _ _ _ (getitem_Ok _ _ _ _ H2 HcD)).
  rewrite (bind_run _ _ _ _ _ (getitem_Ok _ _ _ _ H2 (set_column_has _ _ _))).
  unfold ret, add_scatter. cbn [fig_data app].
  assert (values (col_of (LStr "Date") (rows df''))
          = map (cell (LStr "Date")) (rows df)) as ->.
  { rewrite values_col_of. unfold df'', set_column. simpl rows.
    rewrite map_map.
    rewrite (map_ext _ (cell (LStr "Date")))
      by (intros r; by apply cell_set_column_other).
    by apply map_imap_const. }
  assert (values (col_of (LStr "SMA") (rows df'')) = sma_values (rows df)) as ->.
  { rewrite values_col_of. unfold df'', set_column. simpl rows.
    apply (sma_column_read (rows df)
             (λ i, window_mean 7 (window_at 7 i (map close_number (rows df))))). }
  exists σ2. split; [done|].
  unfold σ2, σ1. rewrite insert_insert_eq. apply insert_fresh_subseteq.
Qed.


Lemma length_window_at {A} w i (l : list A) :
  (i < length l)%nat →
  length (window_at w i l) = (if decide (w ≤ i + 1)%nat then w else i + 1)%nat.
Proof.
  intros Hi. unfold window_at. rewrite length_drop, length_take.
  case_decide; lia.
Qed.

(** The window ending at [i] holds the elements at [i-6 .. i]. *)
Lemma window_at_lookup {A} i j (l : list A) :
  (6 ≤ i)%nat → (j < 7)%nat → window_at 7 i l !! j = l !! (i - 6 + j)%nat.
Proof.
  intros Hi Hj. unfold window_at. rewrite lookup_drop, lookup_take_lt by lia.
  f_equal. lia.
Qed.





(** A window that is not full has no mean. *)
Lemma window_mean_short win :
  (length win < 7)%nat → window_mean 7 win = NaN.
Proof.
  intros Hlen. unfold window_mean.
  pose proof (filter_length_le (λ x, negb (bool_decide (x = NaN))) win).
  by rewrite decide_False by lia.
Qed.

Lemma sma_values_lookup rs i :
  sma_values rs !! i
  = (λ _, VNum (window_mean 7 (window_at 7 i (map close_number rs)))) <$> rs !! i.
Proof. unfold sma_values. apply list_lookup_imap. Qed.





(** ** The snapshot stage *)

Lemma iloc_last_run σ l df :
  σ !! l = Some df →
  iloc_last l σ
  = (Ok (fresh_loc σ),
     <[fresh_loc σ := mkFrame (columns df)
                        (drop (length (rows df) - 1) (rows df))]> σ).
Proof. intros H. unfold iloc_last. by rewrite (bind_run _ _ _ _ _ (deref_run _ _ _ H)). Qed.

Lemma df_T_run σ l df :
  σ !! l = Some df →
  df_T l σ = (Ok (fresh_loc σ), <[fresh_loc σ := transpose df]> σ).
Proof. intros H. unfold df_T. by rewrite (bind_run _ _ _ _ _ (deref_run _ _ _ H)). Qed.

Lemma set_columns_run σ l df names :
  σ !! l = Some df → length names = length (columns df) →
  set_columns l names σ
  = (Ok tt, <[l := rename_columns (map LStr names) df]> σ).
Proof.
  intros H Hlen. unfold set_columns.
  rewrite (bind_run _ _ _ _ _ (deref_run _ _ _ H)). by rewrite decide_True.
Qed.

Lemma imap_map {A B C} (f : nat → B → C) (g : A → B) (l : list A) :
  imap f (map g l) = imap (λ i x, f i (g x)) l.
Proof.
  revert f. induction l as [|x l IH]; intros f; csimpl; [done|].
  f_equal. apply IH.
Qed.

(** The name [reset_index] gives the column of old labels never clashes
    with the single column of the transposed row. *)
Lemma cell_insert_eq c v (m : gmap label value) lbl :
  cell c (mkRow lbl (<[c := v]> m)) = v.
Proof. unfold cell; simpl. by rewrite lookup_insert_eq. Qed.

Lemma cell_insert_ne c c' v (m : gmap label value) lbl :
  c ≠ c' → cell c' (mkRow lbl (<[c := v]> m)) = cell c' (mkRow lbl m).
Proof. intros Hne. unfold cell; simpl. by rewrite lookup_insert_ne. Qed.

Lemma cell_singleton c v lbl : cell c (mkRow lbl (list_to_map [(c, v)])) = v.
Proof. unfold cell; simpl. by rewrite lookup_insert_eq. Qed.

Lemma index_name_fresh (lbl : label) rs :
  index_name (mkFrame [lbl] rs) ≠ lbl.
Proof.
  unfold index_name; simpl.
  case_bool_decide as Hin.
  - apply list_elem_of_singleton in Hin. by subst.
  - intros <-. apply Hin. by apply list_elem_of_singleton.
Qed.

Section Snapshot.

Variable repr_finite : Qc → string.

Lemma latest_data_empty σ l df :
  σ !! l = Some df → df_empty df = true →
  latest_data repr_finite l σ
  = (Ok (fresh_loc σ),
     <[fresh_loc σ := mkFrame [LStr "Category"; LStr "Value"] []]> σ).
Proof.
  intros Hl He. unfold latest_data.
  rewrite (bind_run _ _ _ _ _ (deref_run _ _ _ Hl)). by rewrite He.
Qed.

Lemma latest_data_run σ l df rs r :
  σ !! l = Some df → columns df ≠ [] → rows df = rs ++ [r] →
  ∃ l' σ',
    latest_data repr_finite l σ = (Ok l', σ')
    ∧ σ' !! l' = Some (snapshot_frame repr_finite (columns df) r)
    ∧ σ ⊆ σ'.
Proof.
  intros Hl Hcols Hrows. unfold latest_data.
  rewrite (bind_run _ _ _ _ _ (deref_run _ _ _ Hl)).
  assert (df_empty df = false) as ->.
  { unfold df_empty. rewrite Hrows.
    rewrite !bool_decide_eq_false_2; [done| |done]. by destruct rs. }
  rewrite (bind_run _ _ _ _ _ (iloc_last_run _ _ _ Hl)).
  rewrite Hrows, length_app. simpl length.
  replace (length rs + 1 - 1)%nat with (length rs) by lia.
  rewrite drop_app_length.
  set (l1 := fresh_loc σ). set (F1 := mkFrame (columns df) [r]).
  set (σ1 := <[l1 := F1]> σ).
  assert (σ1 !! l1 = Some F1) as H1 by apply lookup_insert_eq.
  rewrite (bind_run _ _ _ _ _ (df_T_run _ _ _ H1)).
  set (l2 := fresh_loc σ1). set (σ2 := <[l2 := transpose F1]> σ1).
  assert (σ2 !! l2 = Some (transpose F1)) as H2 by apply lookup_insert_eq.
  rewrite (bind_run _ _ _ _ _ (reset_index_run _ _ _ false H2)).
  set (l3 := fresh_loc σ2). set (F3 := with_range_index false (transpose F1)).
  set (σ3 := <[l3 := F3]> σ2).
  assert (σ3 !! l3 = Some F3) as H3 by apply lookup_insert_eq.
  rewrite (bind_run _ _ _ _ _ (set_columns_run _ _ _ ["Category"; "Value"] H3 eq_refl)).
  set (F4 := rename_columns _ F3). set (σ4 := <[l3 := F4]> σ3).
  assert (σ4 !! l3 = Some F4) as H4 by apply lookup_insert_eq.
  assert (LStr "Value" ∈ columns F4) as HcV
    by (apply (bool_decide_unpack _); by vm_compute).
  rewrite (bind_run _ _ _ _ _ (getitem_Ok _ _ _ _ H4 HcV)).
  rewrite (bind_run _ _ _ _ _ (setitem_run _ _ _ _ _ H4)).
  eexists l3, _. split; [done|]. split.
  - rewrite lookup_insert_eq. f_equal.
    (* the rows before the Value column is rendered *)
    assert (rows F4
            = imap (λ j c, mkRow (LInt (Z.of_nat j))
                     (list_to_map [(LStr "Category", value_of_label c);
                                   (LStr "Value", cell c r)])) (columns df))
      as Hrows4.
    { unfold F4, rename_columns, F3, with_range_index, transpose, F1.
      cbn [rows columns map].
      rewrite imap_map. apply imap_ext_map. intros j c. cbn [row_label cells].
      pose proof (index_name_fresh (row_label r)
                    (map (λ c0, mkRow c0 (list_to_map [(row_label r, cell c0 r)]))
                       (columns df))) as Hne.
      by rewrite cell_insert_eq, cell_insert_ne, cell_singleton. }
    unfold set_column, snapshot_frame. rewrite Hrows4.
    rewrite decide_True by done. f_equal. cbn [rows].
    rewrite (imap_ext_map _ _ _ _ (λ _ _, eq_refl)).
    apply imap_ext. intros j c Hc. cbn [row_label cells]. do 2 f_equal.
    apply (series_get_lookup _ j).
    + unfold series_apply, col_of. rewrite map_map.
      rewrite (imap_ext_map _ _ _ _ (λ _ _, eq_refl)), list_lookup_imap, Hc.
      cbn. do 2 f_equal.
    + intros i p Hi Hp. unfold series_apply, col_of in Hp.
      rewrite map_map, (imap_ext_map _ _ _ _ (λ _ _, eq_refl)),
        list_lookup_imap in Hp.
      destruct (columns df !! i); simplify_eq/=. intros [=]. lia.
  - unfold σ4, σ3. rewrite !insert_insert_eq.
    etrans; [apply (insert_fresh_subseteq σ)|].
    etrans; [apply (insert_fresh_subseteq σ1)|].
    apply (insert_fresh_subseteq σ2).
Qed.

Lemma snapshot_frame_pairs cols r :
  map (λ r', (cell (LStr "Category") r', cell (LStr "Value") r'))
    (rows (snapshot_frame repr_finite cols r))
  = map (λ c, (value_of_label c, render repr_finite (cell c r))) cols.
Proof.
  unfold snapshot_frame. cbn [rows]. apply map_imap_const. intros j c.
  rewrite cell_insert_eq, cell_insert_ne by done.
  cbn [list_to_map foldr]. by rewrite cell_insert_eq.
Qed.


End Snapshot.


(** ** Selections that match nothing *)

Lemma try_run {A} (m : M A) σ r σ' : m σ = (r, σ') → try m σ = (Ok r, σ').
Proof. unfold try. by intros ->. Qed.

Lemma filter_nothing {A} (f : A → bool) (l : list A) :
  Forall (λ x, f x = false) l → List.filter f l = [].
Proof. induction 1 as [|x l Hx _ IH]; simpl; [done|]. by rewrite Hx. Qed.

Lemma take_rows_nil idx : take_rows idx [] = [].
Proof. unfold take_rows. induction idx as [|i idx IH]; csimpl; [done|]. by rewrite IH. Qed.

Lemma retained_nothing df tk s e :
  unknown_ticker df tk ∨ e < s → retained df tk s e = [].
Proof.
  intros Hsel. unfold retained. apply filter_nothing.
  destruct Hsel as [[Hc Hrows]|Hse].
  - eapply Forall_impl; [exact Hrows|]. intros r Hr. unfold selected, ticker_is.
    by rewrite (bool_decide_eq_true_2 _ Hc), (bool_decide_eq_false_2 _ Hr).
  - apply Forall_true. intros r. unfold selected, in_range.
    destruct (row_time r) as [t|]; [|by rewrite andb_false_r].
    rewrite andb_false_iff. right. apply andb_false_iff.
    destruct (Z.leb_spec s t), (Z.leb_spec t e); auto. lia.
Qed.

Lemma filtered_nothing `{ArgSort} df tk s e :
  unknown_ticker df tk ∨ e < s →
  filtered df tk s e = mkFrame (columns df) [].
Proof.
  intros Hsel. unfold filtered, sorted_by_date.
  by rewrite (retained_nothing _ _ _ _ Hsel), take_rows_nil.
Qed.

Lemma df_empty_no_rows df : rows df = [] → df_empty df = true.
Proof.
  intros Hrows. unfold df_empty.
  rewrite (bool_decide_eq_true_2 (rows df = [])) by done. apply orb_true_r.
Qed.

Lemma change_short σ l df :
  σ !! l = Some df → LStr "Close" ∈ columns df → (length (rows df) < 2)%nat →
  change l σ = (Ok "$0.00", σ)
  ∧ change_icon l σ = (Ok ("arrow-up", "text-success"), σ)
  ∧ change_percent l σ = (Ok "0.00%", σ).
Proof.
  intros Hl Hc Hlen.
  destruct (metrics_on_short σ l df Hl Hc Hlen) as [Hch Hpc].
  unfold change, change_icon, change_percent.
  by rewrite !(bind_run _ _ _ _ _ Hch), (bind_run _ _ _ _ _ Hpc).
Qed.

Section Empty.

Context `{!ArgSort}.
Variable repr_finite : Qc → string.

(** C7 (as amended): on a dataset that carries the Date, Open, High, Low
    and Close columns, a selection whose instrument the Ticker column does
    not hold, or whose start is after its end, makes get_data return an
    empty frame, and no output of the flush raises: the price is "N/A",
    the change "$0.00", the percent change "0.00%", the chart has an empty
    candlestick and no overlay, the snapshot is the empty table. *)
Theorem empty_selection_outputs (σ : store) (data_all : loc) (D : DataFrame)
    (tk : string) (s e : Z) :
  σ !! data_all = Some D →
  date_parsed D →
  has_ohlc D →
  unknown_ticker D tk ∨ e < s →
  (∃ l σ',
     get_data data_all tk (s, e) σ = (Ok l, σ')
     ∧ σ' !! l = Some (mkFrame (columns D) []))
  ∧ ∃ o σ',
      flush repr_finite data_all tk (s, e) σ = (Ok o, σ')
      ∧ out_price o = Ok "N/A"
      ∧ out_change o = Ok "$0.00"
      ∧ out_change_icon o = Ok ("arrow-up", "text-success")
      ∧ out_change_percent o = Ok "0.00%"
      ∧ out_price_history o = Ok (mkFigure [Candlestick [] [] [] [] [] tk])
      ∧ ∃ l', out_latest_data o = Ok l'
              ∧ σ' !! l' = Some (mkFrame [LStr "Category"; LStr "Value"] []).
Proof.
  intros Hl Hp Hohlc Hsel.
  destruct (get_data_run σ data_all D tk s e Hl Hp) as (l & σ1 & Hget & H1 & _).
  rewrite (filtered_nothing _ _ _ _ Hsel) in H1.
  split; [by exists l, σ1|].
  set (E := mkFrame (columns D) []) in *.
  assert (has_ohlc E) as HohlcE by done.
  assert (LStr "Close" ∈ columns E) as Hclose
    by (apply (has_ohlc_elem D "Close" Hohlc), (bool_decide_unpack _); by vm_compute).
  pose proof (price_on_empty σ1 l E H1 Hclose) as Hprice.
  destruct (change_short σ1 l E H1 Hclose) as (Hch & Hic & Hpc); [simpl; lia|].
  pose proof (price_history_short σ1 l E tk H1 HohlcE) as Hph.
  set (σ2 := <[fresh_loc σ1 := with_range_index true E]> σ1) in *.
  assert (σ2 !! l = Some E) as H2.
  { unfold σ2. rewrite lookup_insert_ne; [done|].
    intros Heq. pose proof (fresh_loc_None σ1) as Hf. rewrite Heq in Hf.
    by rewrite Hf in H1. }
  pose proof (latest_data_empty repr_finite σ2 l E H2) as Hld.
  unfold flush.
  rewrite (bind_run _ _ _ _ _ (try_run _ _ _ _ Hget)). cbn [on_data].
  rewrite (bind_run _ _ _ _ _ (try_run _ _ _ _ (Hprice eq_refl))).
  rewrite (bind_run _ _ _ _ _ (try_run _ _ _ _ Hch)).
  rewrite (bind_run _ _ _ _ _ (try_run _ _ _ _ Hic)).
  rewrite (bind_run _ _ _ _ _ (try_run _ _ _ _ Hpc)).
  rewrite (bind_run _ _ _ _ _ (try_run _ _ _ _ (Hph ltac:(simpl; lia)))).
  rewrite (bind_run _ _ _ _ _ (try_run _ _ _ _ (Hld (df_empty_no_rows E eq_refl)))).
  eexists _, _. split; [done|]. cbn.
  repeat (split; [done|]). eexists. split; [done|]. by rewrite lookup_insert_eq.
Qed.

End Empty.

Lemma empty_selection_outputs_witness :
  (∃ l σ',
     @get_data stable_sorter 0%nat "DMA9" (19723, 19725)
       {[0%nat := sample_dataset]} = (Ok l, σ')
     ∧ σ' !! l = Some (mkFrame (columns sample_dataset) []))
  ∧ ∃ o σ',
      @flush stable_sorter fixed2 0%nat "DMA9" (19723, 19725)
        {[0%nat := sample_dataset]} = (Ok o, σ')
      ∧ out_price o = Ok "N/A"
      ∧ out_change o = Ok "$0.00"
      ∧ out_change_icon o = Ok ("arrow-up", "text-success")
      ∧ out_change_percent o = Ok "0.00%"
      ∧ out_price_history o = Ok (mkFigure [Candlestick [] [] [] [] [] "DMA9"])
      ∧ ∃ l', out_latest_data o = Ok l'
              ∧ σ' !! l' = Some (mkFrame [LStr "Category"; LStr "Value"] []).
Proof.
  refine (@empty_selection_outputs stable_sorter fixed2
            {[0%nat := sample_dataset]} 0%nat sample_dataset "DMA9"
            19723 19725 _ _ _ (or_introl _)).
  - reflexivity.
  - apply (bool_decide_unpack _). vm_compute. exact I.
  - apply (bool_decide_unpack _). vm_compute. exact I.
  - unfold unknown_ticker. apply (bool_decide_unpack _). vm_compute. exact I.
Defined.

(** C7 (as stated) fails.  On a dataset that has a Date and a Close
    column but no Open column, a selection with start after end gives an
    empty frame and the chart stage raises KeyError('Open') on it; and on
    a dataset without a Ticker column the instrument is not looked at, so
    an identifier the dataset does not know still selects the rows of
    the range. *)
Lemma chart_raises_without_ohlc :
  frame_of (@get_data stable_sorter 0%nat "DMA1" (19725, 19723)
              {[0%nat := sample_close_only]})
    = Some (mkFrame [LStr "Date"; LStr "Close"] [])
  ∧ out_price_history
      <$> (match (@flush stable_sorter fixed2 0%nat "DMA1" (19725, 19723)
                    {[0%nat := sample_close_only]}).1 with
           | Ok o => Some o
           | Raise _ => None
           end)
    = Some (Raise (KeyError (LStr "Open")))
  ∧ labels_of
      <$> frame_of (@get_data stable_sorter 0%nat "UNKNOWN" (19723, 19725)
                      {[0%nat := sample_close_only]})
    = Some [LInt 0; LInt 1].
Proof. repeat split; by vm_compute. Qed.

(** * Further properties of the pipeline *)

(** ** The latest observation *)

Lemma Sorted_le_last (ts : list Z) (t : Z) :
  Sorted Z.le (ts ++ [t]) → Forall (λ u, u ≤ t) ts.
Proof.
  intros Hs%Sorted_StronglySorted; [|intros ???; lia].
  induction ts as [|u ts IH]; [done|].
  simpl in Hs. apply StronglySorted_inv in Hs as [Hs Hu].
  constructor; [|by apply IH].
  apply (proj1 (Forall_forall _ _) Hu). apply elem_of_app. right.
  by apply list_elem_of_singleton.
Qed.

Lemma last_row_is_latest (rs : list Row) (r : Row) t :
  Forall (λ r, is_Some (row_time r)) rs → row_time r = Some t →
  Sorted Z.le (omap row_time (rs ++ [r])) →
  ∀ r' t', r' ∈ rs ++ [r] → row_time r' = Some t' → t' ≤ t.
Proof.
  intros Hall Ht Hs r' t' Hin Ht'.
  rewrite omap_app in Hs. cbn in Hs. rewrite Ht in Hs. cbn in Hs.
  apply Sorted_le_last in Hs.
  apply elem_of_app in Hin as [Hin|Hin%list_elem_of_singleton].
  - apply (proj1 (Forall_forall _ _) Hs). apply list_elem_of_omap. by exists r'.
  - subst. rewrite Ht in Ht'. simplify_eq. lia.
Qed.

Lemma filtered_rows_nonempty `{ArgSort} D tk s e :
  retained D tk s e ≠ [] → rows (filtered D tk s e) ≠ [].
Proof.
  intros Hne Hnil. pose proof (filtered_rows_perm D tk s e) as Hperm.
  rewrite Hnil in Hperm. symmetry in Hperm.
  by apply Permutation_nil_r in Hperm.
Qed.

Lemma numeric_closes_filtered `{ArgSort} D tk s e :
  Forall (λ r, is_int_or_float (cell (LStr "Close") r)) (rows D) →
  Forall (λ r, is_int_or_float (cell (LStr "Close") r)) (rows (filtered D tk s e)).
Proof. intros Hnum. rewrite filtered_rows_perm. by apply Forall_List_filter. Qed.

Section Latest.

Context `{!ArgSort}.

(** X1: the price box shows the close of the most recent observation of
    the selection, wherever that row stands in the file: get_data followed
    by price gives "N/A" when no row is selected, and otherwise the close,
    through ".2f", of a selected row whose date no other selected row
    exceeds. *)
Theorem price_is_the_latest_close (σ : store) (data_all : loc)
    (D : DataFrame) (tk : string) (s e : Z) :
  σ !! data_all = Some D →
  date_parsed D →
  LStr "Close" ∈ columns D →
  Forall (λ r, is_int_or_float (cell (LStr "Close") r)) (rows D) →
  ∃ l σ1,
    get_data data_all tk (s, e) σ = (Ok l, σ1)
    ∧ (retained D tk s e = [] → price l σ1 = (Ok "N/A", σ1))
    ∧ (retained D tk s e ≠ [] →
       ∃ r t x,
         r ∈ retained D tk s e
         ∧ row_time r = Some t
         ∧ (∀ r' t', r' ∈ retained D tk s e → row_time r' = Some t' → t' ≤ t)
         ∧ cell (LStr "Close") r = VNum x
         ∧ price l σ1 = (Ok (format_2f x), σ1)).
Proof.
  intros Hl Hp Hc Hnum.
  destruct (get_data_run σ data_all D tk s e Hl Hp) as (l & σ1 & Hrun & H1 & _).
  exists l, σ1. split; [done|].
  pose proof (filtered_rows_perm D tk s e) as Hperm.
  split.
  - intros Hnil. apply (price_on_empty σ1 l _ H1 Hc).
    apply Permutation_nil_r. by rewrite <-Hnil, Hperm.
  - intros Hne.
    destruct (exists_last (filtered_rows_nonempty D tk s e Hne))
      as (rs & r & Hrows).
    assert (r ∈ retained D tk s e) as Hin.
    { rewrite <-Hperm, Hrows. apply elem_of_app. right.
      by apply list_elem_of_singleton. }
    destruct (proj1 (Forall_forall _ _) (retained_have_time D tk s e) r Hin)
      as [t Ht].
    assert (is_int_or_float (cell (LStr "Close") r)) as Hx.
    { apply (proj1 (Forall_forall _ _) (numeric_closes_filtered D tk s e Hnum)).
      rewrite Hrows. apply elem_of_app. right. by left. }
    destruct (cell (LStr "Close") r) as [x| | |] eqn:Hcell; try done.
    exists r, t, x. split; [done|]. split; [done|]. split; [|split; [done|]].
    + intros r' t' Hr' Ht'. rewrite <-Hperm, Hrows in Hr'.
      apply (last_row_is_latest rs r t) with r'; try done.
      * pose proof (filtered_rows_have_time D tk s e) as Hall.
        rewrite Hrows in Hall. by apply Forall_app in Hall as [? _].
      * rewrite <-Hrows. apply sorted_by_date_sorted, retained_have_time.
    + by apply (price_on_number σ1 l _ rs r x H1 Hc).
Qed.

End Latest.

Lemma price_is_the_latest_close_witness :
  ∃ l σ1,
    @get_data stable_sorter 0%nat "DMA1" (19723, 19725)
      {[0%nat := sample_dataset]} = (Ok l, σ1)
    ∧ (retained sample_dataset "DMA1" 19723 19725 = [] →
       price l σ1 = (Ok "N/A", σ1))
    ∧ (retained sample_dataset "DMA1" 19723 19725 ≠ [] →
       ∃ r t x,
         r ∈ retained sample_dataset "DMA1" 19723 19725
         ∧ row_time r = Some t
         ∧ (∀ r' t', r' ∈ retained sample_dataset "DMA1" 19723 19725 →
                     row_time r' = Some t' → t' ≤ t)
         ∧ cell (LStr "Close") r = VNum x
         ∧ price l σ1 = (Ok (format_2f x), σ1)).
Proof.
  refine (@price_is_the_latest_close stable_sorter {[0%nat := sample_dataset]}
            0%nat sample_dataset "DMA1" 19723 19725 _ _ _ _).
  - reflexivity.
  - apply (bool_decide_unpack _). vm_compute. exact I.
  - apply (bool_decide_unpack _). vm_compute. exact I.
  - apply (bool_decide_unpack _). vm_compute. exact I.
Defined.

(** ** Changing the date range *)

Lemma filter_pointwise {A} (f g : A → bool) (l : list A) :
  (∀ x, f x = g x) → List.filter f l = List.filter g l.
Proof. intros Hfg. induction l as [|x l IH]; simpl; [done|]. by rewrite Hfg, IH. Qed.

Lemma in_range_narrow s e s2 e2 r :
  s ≤ s2 → e2 ≤ e → in_range s e r && in_range s2 e2 r = in_range s2 e2 r.
Proof.
  intros Hs He. unfold in_range. destruct (row_time r) as [t|]; [|done].
  destruct (Z.leb_spec s t), (Z.leb_spec t e), (Z.leb_spec s2 t), (Z.leb_spec t e2);
    simpl; try done; lia.
Qed.

Lemma retained_narrow D tk s e s2 e2 :
  s ≤ s2 → e2 ≤ e →
  List.filter (in_range s2 e2) (retained D tk s e) = retained D tk s2 e2.
Proof.
  intros Hs He. unfold retained. rewrite filter_filter_andb.
  apply filter_pointwise. intros r. unfold selected.
  rewrite <-andb_assoc. by rewrite in_range_narrow.
Qed.

Section Narrow.

Context `{!ArgSort}.

(** X2: narrowing the date range only removes rows.  For a range inside
    another, the rows get_data returns for the inner range are the rows it
    returns for the outer range that lie in the inner range, each as often;
    so every row shown for the inner range is shown for the outer one. *)
Theorem narrower_range_selects_a_part (σ : store) (data_all : loc)
    (D : DataFrame) (tk : string) (s e s2 e2 : Z) :
  σ !! data_all = Some D →
  date_parsed D →
  s ≤ s2 → e2 ≤ e →
  ∃ wide narrow,
    frame_of (get_data data_all tk (s, e) σ) = Some wide
    ∧ frame_of (get_data data_all tk (s2, e2) σ) = Some narrow
    ∧ rows narrow ≡ₚ List.filter (in_range s2 e2) (rows wide)
    ∧ ∀ r, r ∈ rows narrow → r ∈ rows wide.
Proof.
  intros Hl Hp Hs He.
  destruct (get_data_run σ data_all D tk s e Hl Hp) as (l1 & σ1 & -> & H1 & _).
  destruct (get_data_run σ data_all D tk s2 e2 Hl Hp) as (l2 & σ2 & -> & H2 & _).
  exists (filtered D tk s e), (filtered D tk s2 e2).
  split; [done|]. split; [done|].
  assert (rows (filtered D tk s2 e2)
          ≡ₚ List.filter (in_range s2 e2) (rows (filtered D tk s e))) as Hperm.
  { rewrite (filter_perm _ _ _ (filtered_rows_perm D tk s e)).
    rewrite retained_narrow by done. apply filtered_rows_perm. }
  split; [done|].
  intros r Hr. rewrite Hperm in Hr.
  apply list_elem_of_In, filter_In in Hr. apply list_elem_of_In, Hr.
Qed.

End Narrow.

Lemma narrower_range_selects_a_part_witness :
  ∃ wide narrow,
    frame_of (@get_data stable_sorter 0%nat "DMA1" (19723, 19725)
                {[0%nat := sample_dataset]}) = Some wide
    ∧ frame_of (@get_data stable_sorter 0%nat "DMA1" (19724, 19724)
                  {[0%nat := sample_dataset]}) = Some narrow
    ∧ rows narrow ≡ₚ List.filter (in_range 19724 19724) (rows wide)
    ∧ ∀ r, r ∈ rows narrow → r ∈ rows wide.
Proof.
  refine (@narrower_range_selects_a_part stable_sorter
            {[0%nat := sample_dataset]} 0%nat sample_dataset "DMA1"
            19723 19725 19724 19724 _ _ _ _).
  - reflexivity.
  - apply (bool_decide_unpack _). vm_compute. exact I.
  - lia.
  - lia.
Defined.

(** ** The order of the rows in the file *)




Section RowOrder.

Context `{!ArgSort}.


End RowOrder.


(** ** One flush: the outputs side by side *)

Lemma reads_run {A} (m : M A) σ : reads m → m σ = ((m σ).1, σ).
Proof. intros Hm. specialize (Hm σ). by destruct (m σ); simplify_eq/=. Qed.

Lemma reads_ret {A} (a : A) : reads (ret a).
Proof. done. Qed.

Lemma reads_lift {A} (r : result A) : reads (lift r).
Proof. done. Qed.

Lemma reads_deref l : reads (deref l).
Proof. intros σ. unfold deref. by destruct (σ !! l). Qed.

Lemma reads_bind {A B} (m : M A) (k : A → M B) :
  reads m → (∀ a, reads (k a)) → reads (bind m k).
Proof.
  intros Hm Hk σ. unfold bind. specialize (Hm σ).
  destruct (m σ) as [[a|e] σ1]; simplify_eq/=; [apply Hk|done].
Qed.

Lemma reads_getitem l name : reads (getitem l name).
Proof. apply reads_bind; [apply reads_deref|intros; apply reads_lift]. Qed.

Ltac reads_go :=
  repeat first
    [ apply reads_ret | apply reads_lift | apply reads_getitem
    | apply reads_bind; [|intros ?]
    | match goal with |- reads (if ?b then _ else _) => destruct b end ].

Lemma reads_get_change l : reads (get_change l).
Proof. unfold get_change. reads_go. Qed.

Lemma reads_get_change_percent l : reads (get_change_percent l).
Proof. unfold get_change_percent. reads_go. Qed.

Lemma reads_price l : reads (price l).
Proof. unfold price. reads_go. Qed.

Lemma reads_change l : reads (change l).
Proof. unfold change. apply reads_bind; [apply reads_get_change|intros]. reads_go. Qed.

Lemma reads_change_icon l : reads (change_icon l).
Proof.
  unfold change_icon. apply reads_bind; [apply reads_get_change|intros]. reads_go.
Qed.

Lemma reads_change_percent l : reads (change_percent l).
Proof.
  unfold change_percent.
  apply reads_bind; [apply reads_get_change_percent|intros]. reads_go.
Qed.

Lemma bind_Ok_inv {A B} (m : M A) (k : A → M B) σ b σ' :
  bind m k σ = (Ok b, σ') → ∃ a σ1, m σ = (Ok a, σ1) ∧ k a σ1 = (Ok b, σ').
Proof.
  unfold bind. destruct (m σ) as [[a|e] σ1]; [|done]. intros Hk. by exists a, σ1.
Qed.

Lemma sort_values_returns_frame `{ArgSort} l by_ σ l' σ' :
  sort_values l by_ σ = (Ok l', σ') → is_Some (σ' !! l').
Proof.
  unfold sort_values, deref, bind, lift, alloc.
  destruct (σ !! l); [|done]. destruct (column _ _); [|done].
  destruct (result_mapM _ _); [|done]. intros [= <- <-].
  rewrite lookup_insert_eq. by eexists.
Qed.

(** Whatever the dataset, the reference a successful [get_data] returns
    denotes a frame. *)
Lemma get_data_returns_frame `{ArgSort} data_all tk dates σ l σ1 :
  get_data data_all tk dates σ = (Ok l, σ1) → is_Some (σ1 !! l).
Proof.
  unfold get_data. intros Hrun.
  do 8 (apply bind_Ok_inv in Hrun as (? & ? & _ & Hrun)).
  by eapply sort_values_returns_frame.
Qed.

(** The snapshot of a frame does not depend on the store around it. *)
Lemma latest_data_local repr_finite σ σ2 l df :
  σ !! l = Some df → σ2 !! l = Some df →
  ∃ l2 σ3 t,
    latest_data repr_finite l σ2 = (Ok l2, σ3)
    ∧ σ3 !! l2 = Some t
    ∧ columns t = [LStr "Category"; LStr "Value"]
    ∧ frame_of (latest_data repr_finite l σ) = Some t
    ∧ σ2 ⊆ σ3.
Proof.
  intros Hl Hl2. destruct (df_empty df) eqn:He.
  - rewrite (latest_data_empty repr_finite σ l df Hl He).
    rewrite (latest_data_empty repr_finite σ2 l df Hl2 He).
    eexists _, _, _. split; [done|]. cbn. rewrite !lookup_insert_eq.
    split; [done|]. split; [done|]. split; [done|]. apply insert_fresh_subseteq.
  - unfold df_empty in He. apply orb_false_iff in He as [Hc Hr].
    apply bool_decide_eq_false in Hc, Hr.
    destruct (exists_last Hr) as (rs & r & Hrows).
    destruct (latest_data_run repr_finite σ l df rs r Hl Hc Hrows)
      as (l1 & σ1 & -> & H1 & _).
    destruct (latest_data_run repr_finite σ2 l df rs r Hl2 Hc Hrows)
      as (l2 & σ3 & -> & H3 & Hsub).
    by exists l2, σ3, (snapshot_frame repr_finite (columns df) r).
Qed.

Section Flush.

Context `{!ArgSort}.
Variable repr_finite : Qc → string.

Lemma flush_run σ data_all tk dates l σ1 :
  get_data data_all tk dates σ = (Ok l, σ1) →
  ∃ o σ',
    flush repr_finite data_all tk dates σ = (Ok o, σ')
    ∧ out_price o = (price l σ1).1
    ∧ out_change o = (change l σ1).1
    ∧ out_change_icon o = (change_icon l σ1).1
    ∧ out_change_percent o = (change_percent l σ1).1
    ∧ out_price_history o = (price_history l tk σ1).1
    ∧ (∃ l' t, out_latest_data o = Ok l'
               ∧ σ' !! l' = Some t
               ∧ columns t = [LStr "Category"; LStr "Value"]
               ∧ frame_of (latest_data repr_finite l σ1) = Some t)
    ∧ σ' !! l = σ1 !! l.
Proof.
  intros Hget.
  destruct (get_data_returns_frame _ _ _ _ _ _ Hget) as [df H1].
  unfold flush.
  rewrite (bind_run _ _ _ _ _ (try_run _ _ _ _ Hget)). cbn [on_data].
  rewrite (bind_run _ _ _ _ _ (try_run _ _ _ _ (reads_run _ σ1 (reads_price l)))).
  rewrite (bind_run _ _ _ _ _ (try_run _ _ _ _ (reads_run _ σ1 (reads_change l)))).
  rewrite (bind_run _ _ _ _ _
             (try_run _ _ _ _ (reads_run _ σ1 (reads_change_icon l)))).
  rewrite (bind_run _ _ _ _ _
             (try_run _ _ _ _ (reads_run _ σ1 (reads_change_percent l)))).
  destruct (price_history l tk σ1) as [ph σ2] eqn:Hph.
  assert (σ1 ⊆ σ2) as Hsub12.
  { pose proof (keeps_price_history σ1 l tk σ1 (reflexivity _)) as [Hs _].
    by rewrite Hph in Hs. }
  rewrite (bind_run _ _ _ _ _ (try_run _ _ _ _ Hph)).
  assert (σ2 !! l = Some df) as H2 by by eapply lookup_weaken.
  destruct (latest_data_local repr_finite σ1 σ2 l df H1 H2)
    as (l2 & σ3 & t & Hld & H3 & Hcols & Hsame & Hsub23).
  rewrite (bind_run _ _ _ _ _ (try_run _ _ _ _ Hld)).
  eexists _, _. split; [done|]. cbn.
  repeat (split; [done|]). split.
  - by exists l2, t.
  - rewrite H1. by eapply lookup_weaken.
Qed.

Lemma flush_raise σ data_all tk dates e σ1 :
  get_data data_all tk dates σ = (Raise e, σ1) →
  flush repr_finite data_all tk dates σ
  = (Ok (mkOutputs (Raise e) (Raise e) (Raise e) (Raise e) (Raise e) (Raise e)),
     σ1).
Proof.
  intros Hget. unfold flush.
  by rewrite (bind_run _ _ _ _ _ (try_run _ _ _ _ Hget)).
Qed.

(** X4: the outputs of one flush do not interfere.  When get_data
    returns a frame, every output of the flush is what its stage returns
    when it is run alone on that frame, directly after get_data: the SMA
    column the chart adds and the renaming and formatting the snapshot
    does in place reach only frames of their own, and the frame get_data
    returned is still the same at the end of the flush.  When get_data
    raises, every output raises that error. *)
Theorem flush_outputs_do_not_interfere (σ : store) (data_all : loc)
    (tk : string) (dates : Z * Z) :
  (∀ l σ1,
     get_data data_all tk dates σ = (Ok l, σ1) →
     ∃ o σ',
       flush repr_finite data_all tk dates σ = (Ok o, σ')
       ∧ out_price o = (price l σ1).1
       ∧ out_change o = (change l σ1).1
       ∧ out_change_icon o = (change_icon l σ1).1
       ∧ out_change_percent o = (change_percent l σ1).1
       ∧ out_price_history o = (price_history l tk σ1).1
       ∧ (∃ l' t, out_latest_data o = Ok l'
                  ∧ σ' !! l' = Some t
                  ∧ columns t = [LStr "Category"; LStr "Value"]
                  ∧ frame_of (latest_data repr_finite l σ1) = Some t)
       ∧ σ' !! l = σ1 !! l)
  ∧ (∀ e σ1,
       get_data data_all tk dates σ = (Raise e, σ1) →
       flush repr_finite data_all tk dates σ
       = (Ok (mkOutputs (Raise e) (Raise e) (Raise e) (Raise e) (Raise e)
                (Raise e)), σ1)).
Proof. split; [apply flush_run|apply flush_raise]. Qed.

(** X5: the snapshot and the price box agree.  On a non-empty selection
    of a dataset with a numeric Close column, the text the flush puts in
    the price box is the text of the Value cell of the snapshot's Close
    row. *)
Theorem snapshot_agrees_with_price (σ : store) (data_all : loc)
    (D : DataFrame) (tk : string) (s e : Z) :
  σ !! data_all = Some D →
  date_parsed D →
  LStr "Close" ∈ columns D →
  Forall (λ r, is_int_or_float (cell (LStr "Close") r)) (rows D) →
  retained D tk s e ≠ [] →
  ∃ o σ' p l' t,
    flush repr_finite data_all tk (s, e) σ = (Ok o, σ')
    ∧ out_price o = Ok p
    ∧ out_latest_data o = Ok l'
    ∧ σ' !! l' = Some t
    ∧ (VStr "Close", VStr p)
      ∈ map (λ r', (cell (LStr "Category") r', cell (LStr "Value") r')) (rows t).
Proof.
  intros Hl Hp Hc Hnum Hne.
  destruct (get_data_run σ data_all D tk s e Hl Hp) as (l & σ1 & Hget & H1 & _).
  destruct (flush_run σ data_all tk (s, e) l σ1 Hget)
    as (o & σ' & Hrun & Hpr & _ & _ & _ & _ & (l' & t & Hld & Ht & _ & Hsame) & _).
  destruct (exists_last (filtered_rows_nonempty D tk s e Hne))
    as (rs & r & Hrows).
  assert (is_int_or_float (cell (LStr "Close") r)) as Hx.
  { apply (proj1 (Forall_forall _ _) (numeric_closes_filtered D tk s e Hnum)).
    rewrite Hrows. apply elem_of_app. right. by left. }
  destruct (cell (LStr "Close") r) as [x| | |] eqn:Hcell; try done.
  rewrite (price_on_number σ1 l (filtered D tk s e) rs r x H1 Hc Hrows Hcell)
    in Hpr.
  assert (columns (filtered D tk s e) ≠ []) as Hcols.
  { intros Hnil. simpl in Hnil. rewrite Hnil in Hc. by apply elem_of_nil in Hc. }
  destruct (latest_data_run repr_finite σ1 l (filtered D tk s e) rs r H1 Hcols Hrows)
    as (l1 & σ2 & Hrun1 & Hlook1 & _).
  rewrite Hrun1 in Hsame. cbn in Hsame. rewrite Hlook1 in Hsame.
  injection Hsame as <-.
  exists o, σ', (format_2f x), l', (snapshot_frame repr_finite (columns D) r).
  split; [done|]. split; [done|]. split; [done|]. split; [done|].
  rewrite snapshot_frame_pairs. apply list_elem_of_fmap.
  exists (LStr "Close"). split; [|done]. cbn. by rewrite Hcell.
Qed.

(** X6: the chart is drawn in date order.  On a dataset with the
    candlestick columns and a numeric Close column, the chart of a flush
    starts with the candlestick of the instrument; its x values are the
    dates of the selected rows, one per row, in non-decreasing order
    whatever the order of the file, and an overlay, when there is one,
    has the same x values. *)
Theorem chart_is_in_date_order (σ : store) (data_all : loc) (D : DataFrame)
    (tk : string) (s e : Z) :
  σ !! data_all = Some D →
  date_parsed D →
  has_ohlc D →
  Forall (λ r, is_int_or_float (cell (LStr "Close") r)) (rows D) →
  ∃ o σ' fig x o' h l c ts,
    flush repr_finite data_all tk (s, e) σ = (Ok o, σ')
    ∧ out_price_history o = Ok fig
    ∧ head (fig_data fig) = Some (Candlestick x o' h l c tk)
    ∧ x = map VTime ts
    ∧ Sorted Z.le ts
    ∧ length ts = length (retained D tk s e)
    ∧ (∀ t, t ∈ ts ↔ ∃ r, r ∈ retained D tk s e ∧ row_time r = Some t)
    ∧ ∀ x' y name, Scatter x' y name ∈ fig_data fig → x' = x.
Proof.
  intros Hl Hp Hohlc Hnum.
  destruct (get_data_run σ data_all D tk s e Hl Hp) as (l & σ1 & Hget & H1 & _).
  destruct (flush_run σ data_all tk (s, e) l σ1 Hget)
    as (o & σ' & Hrun & _ & _ & _ & _ & Hph & _).
  pose proof (filtered_rows_have_time D tk s e) as Hall.
  pose proof (filtered_rows_perm D tk s e) as Hperm.
  assert (has_ohlc (filtered D tk s e)) as Hohlc' by done.
  assert (Sorted Z.le (omap row_time (rows (filtered D tk s e)))) as Hs
    by apply sorted_by_date_sorted, retained_have_time.
  assert (∃ rest,
            (price_history l tk σ1).1
            = Ok (mkFigure (candle_of (rows (filtered D tk s e)) tk :: rest))
            ∧ ∀ x' y name, Scatter x' y name ∈ rest →
                x' = map (cell (LStr "Date")) (rows (filtered D tk s e)))
    as (rest & Hfig & Hrest).
  { destruct (decide (7 ≤ length (rows (filtered D tk s e)))%nat) as [Hlong|Hshort].
    - destruct (price_history_long σ1 l (filtered D tk s e) tk H1 Hohlc' Hlong
                  (numeric_closes_filtered D tk s e Hnum)) as (σ2 & -> & _).
      eexists. split; [done|].
      by intros x' y name [= -> _ _]%list_elem_of_singleton.
    - rewrite (price_history_short σ1 l (filtered D tk s e) tk H1 Hohlc') by lia.
      exists []. split; [done|]. by intros x' y name ?%elem_of_nil. }
  rewrite Hfig in Hph.
  eexists o, σ', _, _, _, _, _, _, (omap row_time (rows (filtered D tk s e))).
  split; [done|]. split; [done|]. split; [done|].
  split; [by apply omap_row_time_cells|]. split; [done|]. split; [|split].
  - rewrite (proj2 (row_times_all (rows (filtered D tk s e)) Hall)).
    by rewrite Hperm.
  - intros t. rewrite list_elem_of_omap. by setoid_rewrite Hperm.
  - intros x' y name [[=]|Hin]%elem_of_cons. by eapply Hrest.
Qed.

End Flush.

Lemma flush_outputs_do_not_interfere_witness :
  ∃ o σ',
    @flush stable_sorter fixed2 0%nat "DMA1" (19723, 19725)
      {[0%nat := sample_dataset]} = (Ok o, σ')
    ∧ out_price o = Ok "12.00"
    ∧ out_change o = Ok "$-1.00"
    ∧ out_change_icon o = Ok ("arrow-down", "text-danger")
    ∧ out_change_percent o = Ok "-7.69%"
    ∧ is_Some (match out_latest_data o with
               | Ok l' => σ' !! l'
               | Raise _ => None
               end).
Proof.
  destruct (proj1 (@flush_outputs_do_not_interfere stable_sorter fixed2
                     {[0%nat := sample_dataset]} 0%nat "DMA1" (19723, 19725))
              4%nat
              (@get_data stable_sorter 0%nat "DMA1" (19723, 19725)
                 {[0%nat := sample_dataset]}).2)
    as (o & σ' & Hrun & Hpr & Hch & Hic & Hpc & _ & (l' & t & Hld & Ht & _) & _).
  - vm_compute. reflexivity.
  - exists o, σ'. split; [exact Hrun|].
    split; [exact Hpr|]. split; [exact Hch|]. split; [exact Hic|].
    split; [exact Hpc|]. rewrite Hld, Ht. by eexists.
Defined.

Lemma snapshot_agrees_with_price_witness :
  ∃ o σ' p l' t,
    @flush stable_sorter fixed2 0%nat "DMA1" (19723, 19725)
      {[0%nat := sample_dataset]} = (Ok o, σ')
    ∧ out_price o = Ok p
    ∧ out_latest_data o = Ok l'
    ∧ σ' !! l' = Some t
    ∧ (VStr "Close", VStr p)
      ∈ map (λ r', (cell (LStr "Category") r', cell (LStr "Value") r')) (rows t).
Proof.
  refine (@snapshot_agrees_with_price stable_sorter fixed2
            {[0%nat := sample_dataset]} 0%nat sample_dataset "DMA1"
            19723 19725 _ _ _ _ _).
  - reflexivity.
  - apply (bool_decide_unpack _). vm_compute. exact I.
  - apply (bool_decide_unpack _). vm_compute. exact I.
  - apply (bool_decide_unpack _). vm_compute. exact I.
  - discriminate.
Defined.

Lemma chart_is_in_date_order_witness :
  ∃ o σ' fig x o' h l c ts,
    @flush stable_sorter fixed2 0%nat "DMA1" (19723, 19725)
      {[0%nat := sample_dataset]} = (Ok o, σ')
    ∧ out_price_history o = Ok fig
    ∧ head (fig_data fig) = Some (Candlestick x o' h l c "DMA1")
    ∧ x = map VTime ts
    ∧ Sorted Z.le ts
    ∧ length ts = length (retained sample_dataset "DMA1" 19723 19725)
    ∧ (∀ t, t ∈ ts ↔
            ∃ r, r ∈ retained sample_dataset "DMA1" 19723 19725
                 ∧ row_time r = Some t)
    ∧ ∀ x' y name, Scatter x' y name ∈ fig_data fig → x' = x.
Proof.
  refine (@chart_is_in_date_order stable_sorter fixed2
            {[0%nat := sample_dataset]} 0%nat sample_dataset "DMA1"
            19723 19725 _ _ _ _).
  - reflexivity.
  - apply (bool_decide_unpack _). vm_compute. exact I.
  - apply (bool_decide_unpack _). vm_compute. exact I.
  - apply (bool_decide_unpack _). vm_compute. exact I.
Defined.

Section Warmup.

Context `{!ArgSort}.
Variable repr_finite : Qc → string.

(** X21: the moving average is computed on the selection, not on the
    file.  In a flush on a dataset with the candlestick columns and a
    numeric Close column, a selection of fewer than 7 rows has no overlay
    however many rows the file holds; a selection of at least 7 rows has
    an overlay with one value per selected row, and its first six values
    are not a number even when the file holds earlier observations. *)
Theorem overlay_warms_up_on_the_selection (σ : store) (data_all : loc)
    (D : DataFrame) (tk : string) (s e : Z) :
  σ !! data_all = Some D →
  date_parsed D →
  has_ohlc D →
  Forall (λ r, is_int_or_float (cell (LStr "Close") r)) (rows D) →
  ∃ o σ' fig,
    flush repr_finite data_all tk (s, e) σ = (Ok o, σ')
    ∧ out_price_history o = Ok fig
    ∧ ((length (retained D tk s e) < 7)%nat → length (fig_data fig) = 1%nat)
    ∧ ((7 ≤ length (retained D tk s e))%nat →
       ∃ c x y,
         fig_data fig = [c; Scatter x y "SMA (7)"]
         ∧ length y = length (retained D tk s e)
         ∧ ∀ i, (i < 6)%nat → y !! i = Some (VNum NaN)).
Proof.
  intros Hl Hp Hohlc Hnum.
  destruct (get_data_run σ data_all D tk s e Hl Hp) as (l & σ1 & Hget & H1 & _).
  destruct (flush_run repr_finite σ data_all tk (s, e) l σ1 Hget)
    as (o & σ' & Hrun & _ & _ & _ & _ & Hph & _).
  assert (has_ohlc (filtered D tk s e)) as Hohlc' by done.
  assert (length (rows (filtered D tk s e)) = length (retained D tk s e)) as Hlen
    by by rewrite filtered_rows_perm.
  destruct (decide (7 ≤ length (retained D tk s e))%nat) as [Hlong|Hshort].
  - destruct (price_history_long σ1 l (filtered D tk s e) tk H1 Hohlc')
      as (σ2 & Hfig & _);
      [lia|by apply numeric_closes_filtered|].
    rewrite Hfig in Hph.
    eexists o, σ', _. split; [done|]. split; [exact Hph|]. split; [lia|].
    intros _. eexists _, _, (sma_values (rows (filtered D tk s e))).
    split; [done|]. split; [rewrite <-Hlen; apply length_imap|].
    intros i Hi. rewrite sma_values_lookup.
    destruct (lookup_lt_is_Some_2 (rows (filtered D tk s e)) i) as [r ->];
      [lia|]. cbn [fmap option_fmap option_map].
    rewrite window_mean_short; [done|].
    rewrite length_window_at by (rewrite length_map; lia).
    rewrite decide_False by lia. lia.
  - rewrite (price_history_short σ1 l (filtered D tk s e) tk H1 Hohlc') in Hph
      by lia.
    eexists o, σ', _. split; [done|]. split; [exact Hph|]. split; [done|lia].
Qed.

End Warmup.

Lemma overlay_warms_up_on_the_selection_witness :
  ∃ o σ' fig c x y,
    @flush stable_sorter fixed2 0%nat "DMA1" (19724, 19730)
      {[0%nat := sample_frame [1; 2; 3; 4; 5; 6; 7; 8; 9]]} = (Ok o, σ')
    ∧ out_price_history o = Ok fig
    ∧ fig_data fig = [c; Scatter x y "SMA (7)"]
    ∧ length y = 7%nat
    ∧ ∀ i, (i < 6)%nat → y !! i = Some (VNum NaN).
Proof.
  destruct (@overlay_warms_up_on_the_selection stable_sorter fixed2
              {[0%nat := sample_frame [1; 2; 3; 4; 5; 6; 7; 8; 9]]} 0%nat
              (sample_frame [1; 2; 3; 4; 5; 6; 7; 8; 9]) "DMA1" 19724 19730)
    as (o & σ' & fig & Hrun & Hph & _ & Hlong).
  - reflexivity.
  - apply (bool_decide_unpack _). vm_compute. exact I.
  - apply (bool_decide_unpack _). vm_compute. exact I.
  - apply (bool_decide_unpack _). vm_compute. exact I.
  - destruct Hlong as (c & x & y & Hfig & Hlen & Hnan).
    + apply (bool_decide_unpack _). vm_compute. exact I.
    + exists o, σ', fig, c, x, y. split; [exact Hrun|]. split; [exact Hph|].
      split; [exact Hfig|]. split; [exact Hlen|exact Hnan].
Defined.

(** ** The displays of the change *)

(** What the three displays show on a frame whose last two closes are
    [b] (second to last) and [a] (last). *)
Lemma displays_on_two σ l df rs r2 r1 a b :
  σ !! l = Some df → LStr "Close" ∈ columns df →
  rows df = rs ++ [r2; r1] →
  cell (LStr "Close") r2 = VNum b → cell (LStr "Close") r1 = VNum a →
  change l σ = (Ok ("$" +:+ format_2f (num_sub a b)), σ)
  ∧ change_icon l σ
    = (Ok (if num_ge0 (num_sub a b) then "arrow-up" else "arrow-down",
           "text-" +:+ (if num_ge0 (num_sub a b) then "success" else "danger")),
       σ)
  ∧ change_percent l σ
    = (Ok (format_2f (num_mul (num_div (num_sub a b) b) (of_Z 100)) +:+ "%"), σ).
Proof.
  intros Hl Hc Hrows Hb Ha.
  destruct (metrics_on_two σ l df rs r2 r1 a b Hl Hc Hrows Hb Ha) as [Hch Hpc].
  unfold change, change_icon, change_percent.
  by rewrite !(bind_run _ _ _ _ _ Hch), (bind_run _ _ _ _ _ Hpc).
Qed.





Lemma num_sub_nan a b : a = NaN ∨ b = NaN → num_sub a b = NaN.
Proof. intros [-> | ->]; unfold num_sub; simpl; [done|]. by destruct a. Qed.





(** X9: a missing close reaches the displays.  When the last close or
    the one before is missing (NaN), the change box shows "$nan", the
    percent box "nan%", and the icon is the down arrow in the danger
    colour, since no comparison with NaN holds; when it is the last close
    that is missing the price box shows "nan". *)
Theorem missing_close_shows_nan (σ : store) (l : loc) (df : DataFrame)
    (rs : list Row) (r2 r1 : Row) (a b : number) :
  σ !! l = Some df →
  LStr "Close" ∈ columns df →
  rows df = rs ++ [r2; r1] →
  cell (LStr "Close") r2 = VNum b →
  cell (LStr "Close") r1 = VNum a →
  a = NaN ∨ b = NaN →
  change l σ = (Ok "$nan", σ)
  ∧ change_icon l σ = (Ok ("arrow-down", "text-danger"), σ)
  ∧ change_percent l σ = (Ok "nan%", σ)
  ∧ (a = NaN → price l σ = (Ok "nan", σ)).
Proof.
  intros Hl Hc Hrows Hb Ha Hnan.
  destruct (displays_on_two σ l df rs r2 r1 _ _ Hl Hc Hrows Hb Ha)
    as (Hch & Hic & Hpc).
  rewrite (num_sub_nan a b Hnan) in *.
  split; [exact Hch|]. split; [exact Hic|]. split; [exact Hpc|].
  intros ->.
  by apply (price_on_number σ l df (rs ++ [r2]) r1 NaN Hl Hc);
    [rewrite Hrows, <-(assoc_L (++))|].
Qed.

Lemma missing_close_shows_nan_witness :
  change 0%nat {[0%nat := sample_closes [of_Z 10; NaN]]}
  = (Ok "$nan", {[0%nat := sample_closes [of_Z 10; NaN]]})
  ∧ change_icon 0%nat {[0%nat := sample_closes [of_Z 10; NaN]]}
    = (Ok ("arrow-down", "text-danger"),
       {[0%nat := sample_closes [of_Z 10; NaN]]})
  ∧ change_percent 0%nat {[0%nat := sample_closes [of_Z 10; NaN]]}
    = (Ok "nan%", {[0%nat := sample_closes [of_Z 10; NaN]]})
  ∧ price 0%nat {[0%nat := sample_closes [of_Z 10; NaN]]}
    = (Ok "nan", {[0%nat := sample_closes [of_Z 10; NaN]]}).
Proof.
  destruct (missing_close_shows_nan {[0%nat := sample_closes [of_Z 10; NaN]]}
              0%nat (sample_closes [of_Z 10; NaN]) []
              (sample_row 0 19723 "DMA1" (of_Z 10))
              (sample_row 1 19724 "DMA1" NaN) NaN (of_Z 10))
    as (Hch & Hic & Hpc & Hpr).
  - reflexivity.
  - apply (bool_decide_unpack _). vm_compute. exact I.
  - reflexivity.
  - reflexivity.
  - reflexivity.
  - left. reflexivity.
  - split; [exact Hch|]. split; [exact Hic|]. split; [exact Hpc|].
    apply Hpr. reflexivity.
Defined.

(** X20: a Close column read as text.  When the last two closes are
    strings (a file whose numbers pandas could not parse), the price
    output raises ValueError, since a string has no format ".2f", and the
    change, icon and percent outputs raise TypeError, since strings do not
    subtract; the snapshot still renders, and shows the last close as the
    text it is. *)
Theorem text_closes_fail_the_metrics (σ : store) (l : loc) (df : DataFrame)
    (rs : list Row) (r2 r1 : Row) (a b : string)
    (repr_finite : Qc → string) :
  σ !! l = Some df →
  LStr "Close" ∈ columns df →
  rows df = rs ++ [r2; r1] →
  cell (LStr "Close") r2 = VStr b →
  cell (LStr "Close") r1 = VStr a →
  price l σ = (Raise ValueError, σ)
  ∧ change l σ = (Raise TypeError, σ)
  ∧ change_icon l σ = (Raise TypeError, σ)
  ∧ change_percent l σ = (Raise TypeError, σ)
  ∧ ∃ t, frame_of (latest_data repr_finite l σ) = Some t
         ∧ (VStr "Close", VStr a)
           ∈ map (λ r', (cell (LStr "Category") r', cell (LStr "Value") r'))
               (rows t).
Proof.
  intros Hl Hc Hrows Hb Ha.
  pose proof (getitem_Ok σ l df "Close" Hl Hc) as Hget.
  assert (length (col_of (LStr "Close") (rows df)) = (length rs + 2)%nat) as Hlen
    by (rewrite length_col_of, Hrows, length_app; simpl; lia).
  assert (get_change l σ = (Raise TypeError, σ)) as Hch.
  { unfold get_change. rewrite (bind_run _ _ _ _ _ Hget), Hlen, Hrows.
    rewrite decide_True by lia. unfold bind, lift.
    by rewrite (iloc_1_col_of' _ rs r2 r1), (iloc_2_col_of _ rs r2 r1), Ha, Hb. }
  assert (get_change_percent l σ = (Raise TypeError, σ)) as Hpc.
  { unfold get_change_percent. rewrite (bind_run _ _ _ _ _ Hget), Hlen, Hrows.
    rewrite decide_True by lia. unfold bind, lift.
    by rewrite (iloc_1_col_of' _ rs r2 r1), (iloc_2_col_of _ rs r2 r1), Ha, Hb. }
  split; [|split; [|split; [|split]]].
  - unfold price. rewrite (bind_run _ _ _ _ _ Hget), Hrows.
    rewrite bool_decide_eq_false_2.
    + unfold bind, lift. by rewrite (iloc_1_col_of' _ rs r2 r1), Ha.
    + unfold col_of. rewrite map_app. by destruct (map _ rs).
  - unfold change. by rewrite (bind_raise _ _ _ _ _ Hch).
  - unfold change_icon. by rewrite (bind_raise _ _ _ _ _ Hch).
  - unfold change_percent. by rewrite (bind_raise _ _ _ _ _ Hpc).
  - assert (columns df ≠ []) as Hcols.
    { intros Hnil. rewrite Hnil in Hc. by apply elem_of_nil in Hc. }
    destruct (latest_data_run repr_finite σ l df (rs ++ [r2]) r1 Hl Hcols)
      as (l' & σ' & -> & Hlook & _); [by rewrite Hrows, <-(assoc_L (++))|].
    eexists. split; [exact Hlook|].
    rewrite snapshot_frame_pairs. apply list_elem_of_fmap.
    exists (LStr "Close"). split; [|done]. cbn. by rewrite Ha.
Qed.

Lemma text_closes_fail_the_metrics_witness :
  price 0%nat {[0%nat := sample_text]} = (Raise ValueError, {[0%nat := sample_text]})
  ∧ change 0%nat {[0%nat := sample_text]}
    = (Raise TypeError, {[0%nat := sample_text]})
  ∧ change_icon 0%nat {[0%nat := sample_text]}
    = (Raise TypeError, {[0%nat := sample_text]})
  ∧ change_percent 0%nat {[0%nat := sample_text]}
    = (Raise TypeError, {[0%nat := sample_text]})
  ∧ ∃ t, frame_of (latest_data fixed2 0%nat {[0%nat := sample_text]}) = Some t
         ∧ (VStr "Close", VStr "1,250.00")
           ∈ map (λ r', (cell (LStr "Category") r', cell (LStr "Value") r'))
               (rows t).
Proof.
  refine (text_closes_fail_the_metrics {[0%nat := sample_text]} 0%nat
            sample_text []
            (text_row 0 19723 "1,200.00") (text_row 1 19724 "1,250.00")
            "1,250.00" "1,200.00" fixed2 _ _ _ _ _).
  - reflexivity.
  - apply (bool_decide_unpack _). vm_compute. exact I.
  - reflexivity.
  - reflexivity.
  - reflexivity.
Defined.

(** ** A gap in the closes *)

Lemma filter_length_lt {A} (f : A → bool) (l : list A) x :
  x ∈ l → f x = false → (length (List.filter f l) < length l)%nat.
Proof.
  intros Hin Hx. induction Hin as [x l|x y l Hin IH]; simpl.
  - rewrite Hx. pose proof (filter_length_le f l). lia.
  - specialize (IH Hx). destruct (f y); simpl; lia.
Qed.

(** A window that holds a missing value has fewer than seven
    observations, hence no mean. *)
Lemma window_mean_gap win :
  NaN ∈ win → (length win ≤ 7)%nat → window_mean 7 win = NaN.
Proof.
  intros Hin Hlen. unfold window_mean.
  pose proof (filter_length_lt (λ x, negb (bool_decide (x = NaN))) win NaN Hin
                eq_refl) as Hlt.
  rewrite decide_False; [done|lia].
Qed.

Lemma window_at_holds {A} (l : list A) i j x :
  l !! j = Some x → (j ≤ i ≤ j + 6)%nat → x ∈ window_at 7 i l.
Proof.
  intros Hj Hi. unfold window_at.
  apply (list_elem_of_lookup_2 _ (j - (i + 1 - 7))%nat).
  rewrite lookup_drop, lookup_take_lt by lia.
  by replace (i + 1 - 7 + (j - (i + 1 - 7)))%nat with j by lia.
Qed.

Lemma length_window_at_le {A} w i (l : list A) :
  (length (window_at w i l) ≤ w)%nat.
Proof. unfold window_at. rewrite length_drop, length_take. lia. Qed.

(** X10: a missing close blanks the moving average for a week of rows.
    On a series of at least 7 rows whose row j has no close (NaN), the
    overlay of price_history is not a number at every row from j to j + 6:
    each of their windows holds the missing value and so fewer than 7
    observations. *)
Theorem missing_close_blanks_the_average (σ : store) (l : loc)
    (df : DataFrame) (tk : string) (j : nat) (r : Row) :
  σ !! l = Some df →
  has_ohlc df →
  Forall (λ r, is_int_or_float (cell (LStr "Close") r)) (rows df) →
  (7 ≤ length (rows df))%nat →
  rows df !! j = Some r →
  cell (LStr "Close") r = VNum NaN →
  ∃ y σ',
    price_history l tk σ
    = (Ok (mkFigure [candle_of (rows df) tk;
                     Scatter (map (cell (LStr "Date")) (rows df)) y "SMA (7)"]),
       σ')
    ∧ length y = length (rows df)
    ∧ ∀ i, (j ≤ i ≤ j + 6)%nat → (i < length (rows df))%nat →
           y !! i = Some (VNum NaN).
Proof.
  intros Hl Hc Hnum Hlen Hj Hr.
  destruct (price_history_long σ l df tk Hl Hc Hlen Hnum) as (σ' & Hrun & _).
  exists (sma_values (rows df)), σ'. split; [done|].
  split; [apply length_imap|].
  intros i Hi Hlt. rewrite sma_values_lookup.
  destruct (lookup_lt_is_Some_2 (rows df) i) as [ri ->]; [done|]. simpl.
  rewrite window_mean_gap; [done| |apply length_window_at_le].
  apply (window_at_holds _ i j); [|done].
  rewrite list_lookup_fmap, Hj. simpl. unfold close_number. by rewrite Hr.
Qed.

Lemma missing_close_blanks_the_average_witness :
  ∃ y σ',
    price_history 0%nat "DMA1" {[0%nat := sample_gap]}
    = (Ok (mkFigure [candle_of (rows sample_gap) "DMA1";
                     Scatter (map (cell (LStr "Date")) (rows sample_gap)) y
                       "SMA (7)"]), σ')
    ∧ length y = length (rows sample_gap)
    ∧ ∀ i, (2 ≤ i ≤ 2 + 6)%nat → (i < length (rows sample_gap))%nat →
           y !! i = Some (VNum NaN).
Proof.
  refine (missing_close_blanks_the_average {[0%nat := sample_gap]} 0%nat
            sample_gap "DMA1" 2%nat (sample_row 2 19725 "DMA1" NaN)
            _ _ _ _ _ _).
  - reflexivity.
  - apply (bool_decide_unpack _). vm_compute. exact I.
  - apply (bool_decide_unpack _). vm_compute. exact I.
  - simpl. lia.
  - reflexivity.
  - reflexivity.
Defined.

(** ** A dataset without one of the columns the outputs read *)

Lemma price_history_missing σ l df tk pre c post :
  σ !! l = Some df →
  ohlc_columns = pre ++ c :: post →
  Forall (λ c', c' ∈ columns df) pre →
  c ∉ columns df →
  price_history l tk σ
  = (Raise (KeyError c), <[fresh_loc σ := with_range_index true df]> σ).
Proof.
  intros Hl Hsplit Hpre Hc. unfold price_history.
  rewrite (bind_run _ _ _ _ _ (reset_index_run _ _ _ true Hl)).
  set (σ1 := <[fresh_loc σ := _]> σ).
  assert (σ1 !! fresh_loc σ = Some (with_range_index true df)) as H1
    by apply lookup_insert_eq.
  assert (∀ name, LStr name ∉ columns df →
            getitem (fresh_loc σ) name σ1 = (Raise (KeyError (LStr name)), σ1))
    as Hno by (intros name Hn; by apply (getitem_KeyError _ _ _ _ H1)).
  assert (∀ name, LStr name ∈ columns df →
            getitem (fresh_loc σ) name σ1
            = (Ok (col_of (LStr name) (rows (with_range_index true df))), σ1))
    as Hyes by (intros name Hn; by apply (getitem_Ok _ _ _ _ H1)).
  clearbody σ1. unfold ohlc_columns in Hsplit. cbn [fmap list_fmap] in Hsplit.
  do 5 (destruct pre as [|? pre];
        [ injection Hsplit as <- _;
          by rewrite (bind_raise _ _ _ _ _ (Hno _ Hc))
        | injection Hsplit as <- Hsplit;
          apply Forall_cons in Hpre as [Hin Hpre];
          rewrite (bind_run _ _ _ _ _ (Hyes _ Hin)); clear Hin ]).
  by destruct pre.
Qed.

Lemma first_missing (cols l : list label) :
  ¬ Forall (λ c, c ∈ cols) l →
  ∃ pre c post, l = pre ++ c :: post ∧ Forall (λ c', c' ∈ cols) pre ∧ c ∉ cols.
Proof.
  induction l as [|c l IH]; intros Hnot; [by destruct Hnot|].
  destruct (decide (c ∈ cols)) as [Hc|Hc].
  - destruct IH as (pre & c' & post & -> & Hpre & Hc').
    { intros Hall. apply Hnot. by constructor. }
    exists (c :: pre), c', post. split; [done|]. split; [by constructor|done].
  - by exists [], c, l.
Qed.

Lemma metrics_without_close σ l df :
  σ !! l = Some df → LStr "Close" ∉ columns df →
  price l σ = (Raise (KeyError (LStr "Close")), σ)
  ∧ change l σ = (Raise (KeyError (LStr "Close")), σ)
  ∧ change_icon l σ = (Raise (KeyError (LStr "Close")), σ)
  ∧ change_percent l σ = (Raise (KeyError (LStr "Close")), σ).
Proof.
  intros Hl Hc. pose proof (getitem_KeyError σ l df "Close" Hl Hc) as Hget.
  assert (get_change l σ = (Raise (KeyError (LStr "Close")), σ)) as Hch
    by (unfold get_change; by rewrite (bind_raise _ _ _ _ _ Hget)).
  assert (get_change_percent l σ = (Raise (KeyError (LStr "Close")), σ)) as Hpc
    by (unfold get_change_percent; by rewrite (bind_raise _ _ _ _ _ Hget)).
  unfold price, change, change_icon, change_percent.
  by rewrite (bind_raise _ _ _ _ _ Hget), !(bind_raise _ _ _ _ _ Hch),
    (bind_raise _ _ _ _ _ Hpc).
Qed.

(** X11: the chart names the first column it misses.  price_history
    reads Date, Open, High, Low and Close in that order; on a frame that
    lacks one of them it raises KeyError for the first one missing, draws
    nothing, and changes no frame that existed. *)
Theorem chart_names_first_missing_column (σ : store) (l : loc)
    (df : DataFrame) (tk : string) (pre post : list label) (c : label) :
  σ !! l = Some df →
  ohlc_columns = pre ++ c :: post →
  Forall (λ c', c' ∈ columns df) pre →
  c ∉ columns df →
  (price_history l tk σ).1 = Raise (KeyError c)
  ∧ σ ⊆ (price_history l tk σ).2.
Proof.
  intros Hl Hsplit Hpre Hc.
  rewrite (price_history_missing σ l df tk pre c post Hl Hsplit Hpre Hc).
  split; [done|]. apply insert_fresh_subseteq.
Qed.

Lemma chart_names_first_missing_column_witness :
  (price_history 0%nat "DMA1" {[0%nat := sample_close_only]}).1
  = Raise (KeyError (LStr "Open"))
  ∧ {[0%nat := sample_close_only]}
    ⊆ (price_history 0%nat "DMA1" {[0%nat := sample_close_only]}).2.
Proof.
  refine (chart_names_first_missing_column {[0%nat := sample_close_only]} 0%nat
            sample_close_only "DMA1" [LStr "Date"]
            [LStr "High"; LStr "Low"; LStr "Close"] (LStr "Open") _ _ _ _).
  - reflexivity.
  - reflexivity.
  - apply (bool_decide_unpack _). vm_compute. exact I.
  - apply (bool_decide_unpack _). vm_compute. exact I.
Defined.

Section NoClose.

Context `{!ArgSort}.
Variable repr_finite : Qc → string.

(** X12: a dataset without a Close column.  The flush still completes:
    the price, change, icon and percent outputs each raise
    KeyError('Close'), the chart raises KeyError for a candlestick column
    the dataset lacks, and the snapshot is still produced. *)
Theorem outputs_without_close_column (σ : store) (data_all : loc)
    (D : DataFrame) (tk : string) (s e : Z) :
  σ !! data_all = Some D →
  date_parsed D →
  LStr "Close" ∉ columns D →
  ∃ o σ',
    flush repr_finite data_all tk (s, e) σ = (Ok o, σ')
    ∧ out_price o = Raise (KeyError (LStr "Close"))
    ∧ out_change o = Raise (KeyError (LStr "Close"))
    ∧ out_change_icon o = Raise (KeyError (LStr "Close"))
    ∧ out_change_percent o = Raise (KeyError (LStr "Close"))
    ∧ (∃ c, c ∈ ohlc_columns ∧ (c ∉ columns D)
            ∧ out_price_history o = Raise (KeyError c))
    ∧ ∃ l' t, out_latest_data o = Ok l'
              ∧ σ' !! l' = Some t
              ∧ columns t = [LStr "Category"; LStr "Value"].
Proof.
  intros Hl Hp Hc.
  destruct (get_data_run σ data_all D tk s e Hl Hp) as (l & σ1 & Hget & H1 & _).
  destruct (flush_run repr_finite σ data_all tk (s, e) l σ1 Hget)
    as (o & σ' & Hrun & Hpr & Hch & Hic & Hpc & Hph
        & (l' & t & Hld & Ht & Hcols & _) & _).
  destruct (metrics_without_close σ1 l _ H1 Hc) as (Hpr' & Hch' & Hic' & Hpc').
  rewrite Hpr' in Hpr. rewrite Hch' in Hch. rewrite Hic' in Hic.
  rewrite Hpc' in Hpc.
  exists o, σ'. split; [done|]. repeat (split; [done|]). split.
  - destruct (first_missing (columns D) ohlc_columns)
      as (pre & c & post & Hsplit & Hpre & Hmiss).
    { intros Hall. apply Hc. apply (proj1 (Forall_forall _ _) Hall).
      apply (bool_decide_unpack _). by vm_compute. }
    exists c. split.
    + rewrite Hsplit. apply elem_of_app. right. by left.
    + split; [done|].
      by rewrite Hph,
        (price_history_missing σ1 l _ tk pre c post H1 Hsplit Hpre Hmiss).
  - by exists l', t.
Qed.

End NoClose.

Lemma outputs_without_close_column_witness :
  ∃ o σ',
    @flush stable_sorter fixed2 0%nat "DMA1" (19723, 19725)
      {[0%nat := sample_no_prices]} = (Ok o, σ')
    ∧ out_price o = Raise (KeyError (LStr "Close"))
    ∧ out_change o = Raise (KeyError (LStr "Close"))
    ∧ out_change_icon o = Raise (KeyError (LStr "Close"))
    ∧ out_change_percent o = Raise (KeyError (LStr "Close"))
    ∧ (∃ c, c ∈ ohlc_columns ∧ (c ∉ columns sample_no_prices)
            ∧ out_price_history o = Raise (KeyError c))
    ∧ ∃ l' t, out_latest_data o = Ok l'
              ∧ σ' !! l' = Some t
              ∧ columns t = [LStr "Category"; LStr "Value"].
Proof.
  refine (@outputs_without_close_column stable_sorter fixed2
            {[0%nat := sample_no_prices]} 0%nat sample_no_prices "DMA1"
            19723 19725 _ _ _).
  - reflexivity.
  - apply (bool_decide_unpack _). vm_compute. exact I.
  - apply (bool_decide_unpack _). vm_compute. exact I.
Defined.

(** * Properties of the start-up code *)

(** ** [unique] *)

Lemma unique_from_elem seen vs v :
  v ∈ unique_from seen vs ↔ v ∈ vs ∧ v ∉ seen.
Proof.
  revert seen. induction vs as [|x vs IH]; intros seen; simpl.
  - split; [by intros ?%elem_of_nil|by intros [?%elem_of_nil _]].
  - case_decide as Hx.
    + rewrite IH, elem_of_cons. split; [tauto|].
      intros [[->|?] ?]; [done|tauto].
    + rewrite !elem_of_cons, IH, elem_of_cons. split.
      * intros [->|(? & ?)]; [tauto|]. split; [tauto|]. tauto.
      * intros [[->|?] ?]; [tauto|].
        destruct (decide (v = x)); [tauto|]. right. split; [done|]. tauto.
Qed.

Lemma unique_from_NoDup seen vs : NoDup (unique_from seen vs).
Proof.
  revert seen. induction vs as [|x vs IH]; intros seen; simpl; [constructor|].
  case_decide as Hx; [apply IH|].
  constructor; [|apply IH].
  rewrite unique_from_elem, elem_of_cons. tauto.
Qed.

Lemma unique_col_of_elem c rs v :
  v ∈ unique (col_of c rs) ↔ ∃ r, r ∈ rs ∧ cell c r = v.
Proof.
  unfold unique. rewrite unique_from_elem, values_col_of.
  split.
  - intros [(r & -> & Hr)%list_elem_of_fmap _]. by exists r.
  - intros (r & Hr & <-). split; [|apply not_elem_of_nil].
    apply list_elem_of_fmap. by exists r.
Qed.

(** ** The list of instruments *)

Lemma list_tickers_run σ l D :
  σ !! l = Some D →
  list_tickers l σ
  = (Ok (if bool_decide (LStr "Ticker" ∈ columns D)
         then unique (col_of (LStr "Ticker") (rows D))
         else [VStr "LOCAL"]), σ).
Proof.
  intros Hl. unfold list_tickers.
  rewrite (bind_run _ _ _ _ _ (has_column_run _ _ _ _ Hl)).
  case_bool_decide as Hc; [|done].
  by rewrite (bind_run _ _ _ _ _ (getitem_Ok _ _ _ _ Hl Hc)).
Qed.

(** X13: the instruments offered.  When the dataset has a Ticker column
    the list of line 15 holds each value of that column once, so a value
    is listed exactly when some row carries it, it starts with the value
    of the first row, and it is empty when the dataset has no row; without
    a Ticker column the list is the single name "LOCAL". *)
Theorem ticker_choices (σ : store) (l : loc) (D : DataFrame) :
  σ !! l = Some D →
  ∃ ts,
    list_tickers l σ = (Ok ts, σ)
    ∧ NoDup ts
    ∧ (LStr "Ticker" ∈ columns D →
       (∀ v, v ∈ ts ↔ ∃ r, r ∈ rows D ∧ cell (LStr "Ticker") r = v)
       ∧ (∀ r rs, rows D = r :: rs → head ts = Some (cell (LStr "Ticker") r))
       ∧ (rows D = [] → ts = []))
    ∧ (LStr "Ticker" ∉ columns D → ts = [VStr "LOCAL"]).
Proof.
  intros Hl. rewrite (list_tickers_run σ l D Hl).
  eexists. split; [done|]. case_bool_decide as Hc.
  - split; [apply unique_from_NoDup|]. split; [|done]. intros _.
    split; [apply unique_col_of_elem|]. split.
    + intros r rs ->. unfold unique. rewrite values_col_of.
      cbn [map unique_from].
      case_decide as Hin; [by apply elem_of_nil in Hin|done].
    + by intros ->.
  - split; [apply NoDup_singleton|]. split; [done|]. done.
Qed.

Lemma ticker_choices_witness :
  ∃ ts,
    list_tickers 0%nat {[0%nat := sample_dataset]}
    = (Ok ts, {[0%nat := sample_dataset]})
    ∧ NoDup ts
    ∧ (LStr "Ticker" ∈ columns sample_dataset →
       (∀ v, v ∈ ts ↔
             ∃ r, r ∈ rows sample_dataset ∧ cell (LStr "Ticker") r = v)
       ∧ (∀ r rs, rows sample_dataset = r :: rs →
                  head ts = Some (cell (LStr "Ticker") r))
       ∧ (rows sample_dataset = [] → ts = []))
    ∧ (LStr "Ticker" ∉ columns sample_dataset → ts = [VStr "LOCAL"]).
Proof.
  refine (ticker_choices {[0%nat := sample_dataset]} 0%nat sample_dataset _).
  reflexivity.
Defined.

Section Choices.

Context `{!ArgSort}.


End Choices.


(** ** The latest date and the default range *)

Lemma max_time_None ts : max_time ts = None ↔ Forall (λ o, o = None) ts.
Proof.
  induction ts as [|[t|] ts IH]; simpl.
  - split; [constructor|done].
  - split; [by destruct (max_time ts)|]. by intros [? _]%Forall_cons.
  - rewrite IH. split; [by constructor|by intros [_ ?]%Forall_cons].
Qed.

Lemma max_time_Some ts t :
  max_time ts = Some t → Some t ∈ ts ∧ ∀ u, Some u ∈ ts → u ≤ t.
Proof.
  revert t. induction ts as [|[u|] ts IH]; intros t; simpl; [done|..].
  - destruct (max_time ts) as [m|] eqn:Hm.
    + intros [= <-]. destruct (IH m eq_refl) as [Hin Hle].
      split.
      * destruct (Z.max_spec u m) as [[_ ->]|[_ ->]]; [by right|by left].
      * intros w [[= ->]|Hw]%elem_of_cons; [lia|]. specialize (Hle w Hw). lia.
    + intros [= <-]. split; [by left|].
      intros w [[= ->]|Hw]%elem_of_cons; [lia|].
      apply max_time_None in Hm.
      by apply (proj1 (Forall_forall _ _) Hm) in Hw.
  - intros Ht. destruct (IH t Ht) as [Hin Hle]. split; [by right|].
    intros w [[=]|Hw]%elem_of_cons. by apply Hle.
Qed.

Lemma latest_date_run σ l D :
  σ !! l = Some D → date_parsed D →
  latest_date l σ = (Ok (max_time (map row_time (rows D))), σ).
Proof.
  intros Hl [Hc Hd]. unfold latest_date.
  rewrite (bind_run _ _ _ _ _ (getitem_Ok _ _ _ _ Hl Hc)).
  unfold series_max, lift. rewrite values_col_of.
  rewrite (result_mapM_Ok _ _ row_time); [done|].
  eapply Forall_impl; [exact Hd|]. apply as_datetime_row.
Qed.

(** X15: the end of the default range.  On the parsed dataset, line 16
    gives the greatest date of the Date column: some row carries it and no
    row has a later one; it gives NaT exactly when no row has a date. *)
Theorem latest_date_is_the_maximum (σ : store) (l : loc) (D : DataFrame) :
  σ !! l = Some D →
  date_parsed D →
  ∃ e,
    latest_date l σ = (Ok e, σ)
    ∧ (e = None ↔ Forall (λ r, row_time r = None) (rows D))
    ∧ ∀ t, e = Some t →
        (∃ r, r ∈ rows D ∧ row_time r = Some t)
        ∧ ∀ r u, r ∈ rows D → row_time r = Some u → u ≤ t.
Proof.
  intros Hl Hp. rewrite (latest_date_run σ l D Hl Hp).
  eexists. split; [done|]. split.
  - rewrite max_time_None. by rewrite Forall_fmap.
  - intros t [Hin Hle]%max_time_Some. split.
    + apply list_elem_of_fmap in Hin as (r & Hr & Hin). by exists r.
    + intros r u Hr Hu. apply Hle. apply list_elem_of_fmap. by exists r.
Qed.

Lemma latest_date_is_the_maximum_witness :
  ∃ e,
    latest_date 0%nat {[0%nat := sample_dataset]}
    = (Ok e, {[0%nat := sample_dataset]})
    ∧ (e = None ↔ Forall (λ r, row_time r = None) (rows sample_dataset))
    ∧ ∀ t, e = Some t →
        (∃ r, r ∈ rows sample_dataset ∧ row_time r = Some t)
        ∧ ∀ r u, r ∈ rows sample_dataset → row_time r = Some u → u ≤ t.
Proof.
  refine (latest_date_is_the_maximum {[0%nat := sample_dataset]} 0%nat
            sample_dataset _ _).
  - reflexivity.
  - apply (bool_decide_unpack _). vm_compute. exact I.
Defined.


Section DefaultRange.

Context `{!ArgSort}.


End DefaultRange.


(** ** Parsing the dates *)

Lemma result_mapM_Raise {A B} (f : A → result B) (l1 l2 : list A) x e :
  Forall (λ x, ∃ y, f x = Ok y) l1 → f x = Raise e →
  result_mapM f (l1 ++ x :: l2) = Raise e.
Proof.
  induction 1 as [|x' l [y Hy] _ IH]; intros Hx; simpl.
  - by rewrite Hx.
  - by rewrite Hy, IH.
Qed.

(** Alignment on unique labels: the assignment of a Series with the
    frame's own index puts its values in the rows, position by position. *)
Lemma set_column_zip c (rs : list Row) (vs : list value) :
  NoDup (map row_label rs) → length vs = length rs →
  map (λ r, mkRow (row_label r)
              (<[c := series_get (row_label r) (zip (map row_label rs) vs)]>
                 (cells r))) rs
  = zip_with (λ r v, mkRow (row_label r) (<[c := v]> (cells r))) rs vs.
Proof.
  intros Hnd Hlen. apply list_eq. intros i.
  rewrite list_lookup_fmap, lookup_zip_with.
  destruct (rs !! i) as [r|] eqn:Hr; [|done]. simpl.
  destruct (lookup_lt_is_Some_2 vs i) as [v Hv].
  { rewrite Hlen. by eapply lookup_lt_Some. }
  rewrite Hv. simpl. do 3 f_equal.
  apply (series_get_lookup _ i).
  - rewrite lookup_zip_with, list_lookup_fmap, Hr, Hv. done.
  - intros j [k w] Hj Hp. simpl.
    rewrite lookup_zip_with, list_lookup_fmap in Hp.
    destruct (rs !! j) as [r'|] eqn:Hr'; simplify_eq/=.
    destruct (vs !! j); simplify_eq/=.
    intros Heq.
    assert (j = i); [|lia].
    apply (NoDup_lookup (map row_label rs) j i (row_label r) Hnd).
    + rewrite list_lookup_fmap, Hr'. simpl. congruence.
    + by rewrite list_lookup_fmap, Hr.
Qed.

Lemma to_datetime_cell_is_datetime strptime v w :
  to_datetime_cell strptime v = Ok w → is_datetime w.
Proof.
  destruct v as [[| | |]| | |]; simpl; try (by intros [= <-]);
    destruct (strptime _) as [[?|]|]; simpl; by intros [= <-].
Qed.

Lemma with_dates_labels vs D :
  length vs = length (rows D) → labels_of (with_dates vs D) = labels_of D.
Proof.
  intros Hlen. unfold labels_of, with_dates. cbn [rows].
  revert vs Hlen. induction (rows D) as [|r rs IH]; intros [|v vs] Hlen;
    simplify_eq/=; [done|]. f_equal. by apply IH.
Qed.

Lemma with_dates_other c vs D :
  c ≠ LStr "Date" → length vs = length (rows D) →
  map (cell c) (rows (with_dates vs D)) = map (cell c) (rows D).
Proof.
  intros Hc Hlen. unfold with_dates. cbn [rows].
  revert vs Hlen. induction (rows D) as [|r rs IH]; intros [|v vs] Hlen;
    simplify_eq/=; [done|]. f_equal; [|by apply IH].
  by apply cell_insert_ne.
Qed.

Lemma with_dates_date vs D :
  length vs = length (rows D) →
  map (cell (LStr "Date")) (rows (with_dates vs D)) = vs.
Proof.
  intros Hlen. unfold with_dates. cbn [rows].
  revert vs Hlen. induction (rows D) as [|r rs IH]; intros [|v vs] Hlen;
    simplify_eq/=; [done|]. f_equal; [|by apply IH].
  by apply cell_insert_eq.
Qed.

Section Init.

Variable strptime : value → result (option Z).

Lemma parse_dates_run σ data_all D vs :
  σ !! data_all = Some D → LStr "Date" ∈ columns D →
  NoDup (labels_of D) →
  Forall2 (λ r v, to_datetime_cell strptime (cell (LStr "Date") r) = Ok v)
    (rows D) vs →
  parse_dates strptime data_all σ = (Ok tt, <[data_all := with_dates vs D]> σ)
  ∧ date_parsed (with_dates vs D).
Proof.
  intros Hl Hc Hnd Hvs.
  pose proof (Forall2_length _ _ _ Hvs) as Hlen.
  split.
  - unfold parse_dates.
    rewrite (bind_run _ _ _ _ _ (getitem_Ok _ _ _ _ Hl Hc)).
    unfold to_datetime. rewrite values_col_of.
    assert (result_mapM (to_datetime_cell strptime)
              (map (cell (LStr "Date")) (rows D)) = Ok vs) as ->.
    { clear Hlen. induction Hvs as [|r v rs vs Hv _ IH]; simpl; [done|].
      by rewrite Hv, IH. }
    unfold bind at 1, lift at 1, result_bind.
    rewrite (setitem_run _ _ _ _ _ Hl). do 2 f_equal.
    unfold set_column, with_dates. rewrite decide_True by done. f_equal.
    unfold col_of. rewrite map_map. cbn [fst].
    by apply set_column_zip.
  - split; [done|].
    apply Forall_forall. intros r' Hr'.
    assert (cell (LStr "Date") r' ∈ vs) as Hin.
    { rewrite <-(with_dates_date vs D) by done.
      apply list_elem_of_fmap. by exists r'. }
    apply list_elem_of_lookup in Hin as [i Hi].
    destruct (Forall2_lookup_r _ _ _ _ _ Hvs Hi) as (r & _ & Hconv).
    by eapply to_datetime_cell_is_datetime.
Qed.

Lemma module_init_run σ l D vs :
  σ !! l = Some D → LStr "Date" ∈ columns D →
  NoDup (labels_of D) →
  Forall2 (λ r v, to_datetime_cell strptime (cell (LStr "Date") r) = Ok v)
    (rows D) vs →
  let D' := with_dates vs D in
  let σ' := <[l := D']> σ in
  let e := max_time (map row_time (rows D')) in
  module_init strptime l σ
  = (Ok (mkGlobals
           (if bool_decide (LStr "Ticker" ∈ columns D)
            then unique (col_of (LStr "Ticker") (rows D'))
            else [VStr "LOCAL"])
           e (minus_weeks e 12)), σ')
  ∧ date_parsed D'.
Proof.
  intros Hl Hc Hnd Hvs D' σ' e.
  destruct (parse_dates_run σ l D vs Hl Hc Hnd Hvs) as [Hrun Hp].
  split; [|done]. unfold module_init.
  rewrite (bind_run _ _ _ _ _ Hrun).
  assert (σ' !! l = Some D') as Hl' by apply lookup_insert_eq.
  rewrite (bind_run _ _ _ _ _ (list_tickers_run _ _ _ Hl')).
  by rewrite (bind_run _ _ _ _ _ (latest_date_run _ _ _ Hl' Hp)).
Qed.

(** X17: start-up parses the dates in place.  On a file with a Date
    column and unique row labels whose Date cells can all be read, lines
    14-17 succeed; afterwards the dataset has the same columns, row labels
    and cells as before except that each Date cell is the Timestamp or NaT
    read from it, so the Date column is a datetime64 column; the list of
    instruments and the end of the default range are those of this parsed
    dataset, and the start is 84 days before the end. *)
Theorem module_init_parses_the_dates (σ : store) (l : loc) (D : DataFrame)
    (vs : list value) :
  σ !! l = Some D →
  LStr "Date" ∈ columns D →
  NoDup (labels_of D) →
  Forall2 (λ r v, to_datetime_cell strptime (cell (LStr "Date") r) = Ok v)
    (rows D) vs →
  ∃ g D',
    module_init strptime l σ = (Ok g, <[l := D']> σ)
    ∧ date_parsed D'
    ∧ columns D' = columns D
    ∧ labels_of D' = labels_of D
    ∧ map (cell (LStr "Date")) (rows D') = vs
    ∧ (∀ c, c ≠ LStr "Date" → map (cell c) (rows D') = map (cell c) (rows D))
    ∧ list_tickers l (<[l := D']> σ) = (Ok (tickers g), <[l := D']> σ)
    ∧ latest_date l (<[l := D']> σ) = (Ok (end_ g), <[l := D']> σ)
    ∧ start g = (λ t, t - 84) <$> end_ g.
Proof.
  intros Hl Hc Hnd Hvs.
  pose proof (Forall2_length _ _ _ Hvs) as Hlen. symmetry in Hlen.
  destruct (module_init_run σ l D vs Hl Hc Hnd Hvs) as [Hrun Hp].
  eexists _, (with_dates vs D). split; [exact Hrun|].
  split; [done|]. split; [done|].
  split; [by apply with_dates_labels|].
  split; [by apply with_dates_date|].
  split; [intros c Hne; by apply with_dates_other|].
  assert (<[l := with_dates vs D]> σ !! l = Some (with_dates vs D)) as Hl'
    by apply lookup_insert_eq.
  split; [by rewrite (list_tickers_run _ _ _ Hl')|].
  split; [by rewrite (latest_date_run _ _ _ Hl' Hp)|].
  done.
Qed.

(** X18: start-up fails cleanly.  Without a Date column line 14 raises
    KeyError('Date'); when a Date cell cannot be read it raises the error
    of the first such cell; in both cases the dataset is left as it was
    read. *)
Theorem module_init_fails_cleanly (σ : store) (l : loc) (D : DataFrame) :
  σ !! l = Some D →
  (LStr "Date" ∉ columns D →
   module_init strptime l σ = (Raise (KeyError (LStr "Date")), σ))
  ∧ (∀ rs1 r rs2 e,
       LStr "Date" ∈ columns D →
       rows D = rs1 ++ r :: rs2 →
       Forall (λ r', ∃ v, to_datetime_cell strptime (cell (LStr "Date") r') = Ok v)
         rs1 →
       to_datetime_cell strptime (cell (LStr "Date") r) = Raise e →
       module_init strptime l σ = (Raise e, σ)).
Proof.
  intros Hl. split.
  - intros Hc. unfold module_init, parse_dates.
    by rewrite (bind_raise _ _ _ _ _
                  (bind_raise _ _ _ _ _ (getitem_KeyError _ _ _ _ Hl Hc))).
  - intros rs1 r rs2 e Hc Hrows Hok Hbad. unfold module_init, parse_dates.
    rewrite (bind_raise _ _ σ e σ); [done|].
    rewrite (bind_run _ _ _ _ _ (getitem_Ok _ _ _ _ Hl Hc)).
    unfold to_datetime. rewrite values_col_of, Hrows, map_app. cbn [map].
    rewrite (result_mapM_Raise _ _ _ _ e); [done| |done].
    apply Forall_fmap. eapply Forall_impl; [exact Hok|]. done.
Qed.

(** X19: the instrument selected when the page is built.  After a
    successful start-up, line 22 selects the Ticker of the first row of
    the file, or "LOCAL" when the file has no Ticker column; on a file
    with a Ticker column and no row it raises IndexError, so the module
    does not load. *)
Theorem first_ticker_is_selected (σ : store) (l : loc) (D : DataFrame)
    (vs : list value) :
  σ !! l = Some D →
  LStr "Date" ∈ columns D →
  NoDup (labels_of D) →
  Forall2 (λ r v, to_datetime_cell strptime (cell (LStr "Date") r) = Ok v)
    (rows D) vs →
  (LStr "Ticker" ∈ columns D → rows D = [] →
   (app_start strptime l σ).1 = Raise IndexError)
  ∧ (∀ r rs, LStr "Ticker" ∈ columns D → rows D = r :: rs →
       ∃ g, (app_start strptime l σ).1 = Ok (g, cell (LStr "Ticker") r))
  ∧ (LStr "Ticker" ∉ columns D →
     ∃ g, (app_start strptime l σ).1 = Ok (g, VStr "LOCAL")
          ∧ tickers g = [VStr "LOCAL"]).
Proof.
  intros Hl Hc Hnd Hvs.
  destruct (module_init_run σ l D vs Hl Hc Hnd Hvs) as [Hrun _].
  unfold app_start. rewrite (bind_run _ _ _ _ _ Hrun). clear Hrun.
  split; [|split].
  - intros Ht Hrows. rewrite (bool_decide_eq_true_2 _ Ht).
    unfold with_dates. rewrite Hrows. done.
  - intros r rs Ht Hrows. rewrite (bool_decide_eq_true_2 _ Ht).
    unfold with_dates. rewrite Hrows in *.
    apply Forall2_cons_inv_l in Hvs as (v & vs' & _ & _ & ->).
    eexists. unfold bind, lift, selected_ticker, unique. cbn.
    rewrite decide_False by apply not_elem_of_nil. cbn.
    do 2 f_equal. unfold cell. cbn. by rewrite lookup_insert_ne.
  - intros Ht. rewrite (bool_decide_eq_false_2 _ Ht). by eexists.
Qed.

End Init.

Lemma module_init_parses_the_dates_witness :
  ∃ g D',
    module_init sample_strptime 0%nat {[0%nat := sample_raw]}
    = (Ok g, <[0%nat := D']> {[0%nat := sample_raw]})
    ∧ date_parsed D'
    ∧ columns D' = columns sample_raw
    ∧ labels_of D' = labels_of sample_raw
    ∧ map (cell (LStr "Date")) (rows D') = [VTime 19724; VTime 19723; VNaT]
    ∧ (∀ c, c ≠ LStr "Date" →
            map (cell c) (rows D') = map (cell c) (rows sample_raw))
    ∧ list_tickers 0%nat (<[0%nat := D']> {[0%nat := sample_raw]})
      = (Ok (tickers g), <[0%nat := D']> {[0%nat := sample_raw]})
    ∧ latest_date 0%nat (<[0%nat := D']> {[0%nat := sample_raw]})
      = (Ok (end_ g), <[0%nat := D']> {[0%nat := sample_raw]})
    ∧ start g = (λ t, t - 84) <$> end_ g.
Proof.
  refine (module_init_parses_the_dates sample_strptime {[0%nat := sample_raw]}
            0%nat sample_raw [VTime 19724; VTime 19723; VNaT] _ _ _ _).
  - reflexivity.
  - apply (bool_decide_unpack _). vm_compute. exact I.
  - apply (bool_decide_unpack _). vm_compute. exact I.
  - repeat constructor.
Defined.

Lemma module_init_fails_cleanly_witness :
  module_init sample_strptime 0%nat {[0%nat := sample_raw_bad]}
  = (Raise ValueError, {[0%nat := sample_raw_bad]}).
Proof.
  refine (proj2 (module_init_fails_cleanly sample_strptime
                   {[0%nat := sample_raw_bad]} 0%nat sample_raw_bad _)
            [raw_row 0 (VStr "02/01/2024") "DMA2" 50]
            (raw_row 1 (VStr "2024-01-01") "DMA1" 10) [] ValueError _ _ _ _).
  - reflexivity.
  - apply (bool_decide_unpack _). vm_compute. exact I.
  - reflexivity.
  - repeat constructor. by eexists.
  - reflexivity.
Defined.

Lemma first_ticker_is_selected_witness :
  ∃ g, (app_start sample_strptime 0%nat {[0%nat := sample_raw]}).1
       = Ok (g, VStr "DMA2").
Proof.
  refine (proj1 (proj2 (first_ticker_is_selected sample_strptime
                          {[0%nat := sample_raw]} 0%nat sample_raw
                          [VTime 19724; VTime 19723; VNaT] _ _ _ _))
            (raw_row 0 (VStr "02/01/2024") "DMA2" 50) _ _ _).
  - reflexivity.
  - apply (bool_decide_unpack _). vm_compute. exact I.
  - apply (bool_decide_unpack _). vm_compute. exact I.
  - repeat constructor.
  - apply (bool_decide_unpack _). vm_compute. exact I.
  - reflexivity.
Defined.
